(** * The logging package of go-webapp-sample: SQL trace reconstruction

    A shallow embedding of [src/logger/logger.go]: the value formatter
    [getFormattedValues], the statement reconstruction [createSQL], the
    trace filter [createLog] with the entry points [Print]/[Println], and
    the pipeline builder [build] with [newEncoder].

    Go strings are byte sequences: they are [string]s here, one [ascii]
    per byte.  The parts of Go's standard library the package calls
    ([unicode/utf8], [unicode], [regexp], [fmt], [time]) are modelled in
    the modules that come first, as far as the package uses them. *)

From Stdlib Require Import ZArith List String Ascii Bool Lia DecimalString.
Import ListNotations.
Local Open Scope string_scope.

(** ** Strings as byte sequences *)

Module Bytes.

Definition byte (c : ascii) : Z := Z.of_N (N_of_ascii c).

(** [s[n:]] *)
Fixpoint drop (n : nat) (s : string) : string :=
  match n, s with
  | S k, String _ s' => drop k s'
  | _, _ => s
  end.

(** [s[:n]] *)
Fixpoint take (n : nat) (s : string) : string :=
  match n, s with
  | S k, String c s' => String c (take k s')
  | _, _ => EmptyString
  end.

Fixpoint count (p : ascii -> bool) (s : string) : nat :=
  match s with
  | EmptyString => 0
  | String c s' => (if p c then 1 else 0) + count p s'
  end.

Fixpoint remove (p : ascii -> bool) (s : string) : string :=
  match s with
  | EmptyString => EmptyString
  | String c s' => if p c then remove p s' else String c (remove p s')
  end.

Fixpoint all (p : ascii -> bool) (s : string) : bool :=
  match s with
  | EmptyString => true
  | String c s' => p c && all p s'
  end.

(** [for index, value := range l]: the elements with their indices. *)
Definition enumerate {A : Type} (l : list A) : list (nat * A) :=
  combine (seq 0 (List.length l)) l.

End Bytes.

(** ** [unicode/utf8]: decoding, as [for _, r := range s] and [regexp] do *)

Module Utf8.
Import Bytes.
Local Open Scope Z_scope.

Definition RuneError : Z := 0xFFFD.

Definition cont (b : Z) : bool := (0x80 <=? b) && (b <=? 0xBF).

(** The rune a valid encoding of two, three or four bytes stands for. *)
Definition rune2 (b0 b1 : Z) : Z :=
  Z.lor (Z.shiftl (Z.land b0 0x1F) 6) (Z.land b1 0x3F).

Definition rune3 (b0 b1 b2 : Z) : Z :=
  Z.lor (Z.shiftl (Z.land b0 0x0F) 12)
    (Z.lor (Z.shiftl (Z.land b1 0x3F) 6) (Z.land b2 0x3F)).

Definition rune4 (b0 b1 b2 b3 : Z) : Z :=
  Z.lor (Z.shiftl (Z.land b0 0x07) 18)
    (Z.lor (Z.shiftl (Z.land b1 0x3F) 12)
       (Z.lor (Z.shiftl (Z.land b2 0x3F) 6) (Z.land b3 0x3F))).

(** [utf8.DecodeRuneInString]: the first rune of [s] and its width in
    bytes; an invalid or truncated encoding is [RuneError] of width 1,
    the empty string [RuneError] of width 0. *)
Definition DecodeRuneInString (s : string) : Z * nat :=
  match s with
  | EmptyString => (RuneError, 0%nat)
  | String c0 s1 =>
    let b0 := byte c0 in
    if b0 <? 0x80 then (b0, 1%nat)
    else if (0xC2 <=? b0) && (b0 <=? 0xDF) then
      match s1 with
      | String c1 _ =>
        let b1 := byte c1 in
        if cont b1
        then (rune2 b0 b1, 2%nat)
        else (RuneError, 1%nat)
      | _ => (RuneError, 1%nat)
      end
    else if (0xE0 <=? b0) && (b0 <=? 0xEF) then
      match s1 with
      | String c1 (String c2 _) =>
        let b1 := byte c1 in
        let b2 := byte c2 in
        let lo := if b0 =? 0xE0 then 0xA0 else 0x80 in
        let hi := if b0 =? 0xED then 0x9F else 0xBF in
        if (lo <=? b1) && (b1 <=? hi) && cont b2
        then (rune3 b0 b1 b2, 3%nat)
        else (RuneError, 1%nat)
      | _ => (RuneError, 1%nat)
      end
    else if (0xF0 <=? b0) && (b0 <=? 0xF4) then
      match s1 with
      | String c1 (String c2 (String c3 _)) =>
        let b1 := byte c1 in
        let b2 := byte c2 in
        let b3 := byte c3 in
        let lo := if b0 =? 0xF0 then 0x90 else 0x80 in
        let hi := if b0 =? 0xF4 then 0x8F else 0xBF in
        if (lo <=? b1) && (b1 <=? hi) && cont b2 && cont b3
        then (rune4 b0 b1 b2 b3, 4%nat)
        else (RuneError, 1%nat)
      | _ => (RuneError, 1%nat)
      end
    else (RuneError, 1%nat)
  end.

(** The runes [for _, r := range s] yields, in order.  [skip] counts the
    bytes of the current rune that are still to be passed over. *)
Fixpoint runes_from (skip : nat) (s : string) : list Z :=
  match s with
  | EmptyString => []
  | String _ s' =>
    match skip with
    | S k => runes_from k s'
    | O => let (r, size) := DecodeRuneInString s in
           r :: runes_from (Nat.pred size) s'
    end
  end.

Definition runes (s : string) : list Z := runes_from 0 s.

End Utf8.

(** ** [unicode]: the character properties the package relies on

    [unicode.IsPrint], [unicode.IsLetter] and [unicode.IsDigit] are decided
    for ASCII as Go decides them; beyond ASCII they read Unicode's range
    tables, which are taken as given. *)

Class UnicodeTables : Type := {
  table_IsPrint : Z -> bool;
  table_IsLetter : Z -> bool;
  table_IsDigit : Z -> bool
}.

Module Unicode.
Local Open Scope Z_scope.

Section Properties.
Context {tables : UnicodeTables}.

Definition IsPrint (r : Z) : bool :=
  if r <? 0x80 then (0x20 <=? r) && (r <=? 0x7E) else table_IsPrint r.

Definition IsLetter (r : Z) : bool :=
  if r <? 0x80
  then ((0x41 <=? r) && (r <=? 0x5A)) || ((0x61 <=? r) && (r <=? 0x7A))
  else table_IsLetter r.

Definition IsDigit (r : Z) : bool :=
  if r <? 0x80 then (0x30 <=? r) && (r <=? 0x39) else table_IsDigit r.

End Properties.

End Unicode.

(** ** [fmt]: the [%d] verb *)

Module Fmt.

Definition Sprint_d (z : Z) : string := NilZero.string_of_int (Z.to_int z).

(** [fmt.Sprintf("'%v'", s)] for a string [s]. *)
Definition quoted (s : string) : string := "'" ++ s ++ "'".

End Fmt.

(** ** [regexp]: the expressions of [createSQL] and the three operations on
    them

    Go's matcher is leftmost-first: of the matches that start earliest, the
    one a backtracking search finds first.  [run] is that search, in
    continuation-passing style, over the remaining input. *)

Module Regexp.
Import Bytes Utf8.

Inductive class : Type :=
| CChar (c : ascii)      (* an escaped or plain ASCII character *)
| CDigit                 (* \d, which is [0-9] in Go *)
| CNotDigit.             (* [^\d] *)

Definition class_mem (k : class) (r : Z) : bool :=
  match k with
  | CChar c => (r =? byte c)%Z
  | CDigit => ((0x30 <=? r) && (r <=? 0x39))%Z
  | CNotDigit => negb ((0x30 <=? r) && (r <=? 0x39))%Z
  end.

Inductive regex : Type :=
| Cls (k : class)
| EndText                (* $ without the m flag: end of text *)
| Seq (r1 r2 : regex)
| Alt (r1 r2 : regex)
| Plus (k : class)       (* k+, greedy *)
| Group (r : regex).     (* ( r ), capturing group 1 *)

(** The characters of [lit], one after the other, then [r]. *)
Fixpoint literal (lit : string) (r : regex) : regex :=
  match lit with
  | EmptyString => r
  | String c lit' => Seq (Cls (CChar c)) (literal lit' r)
  end.

Section Run.
Context {A : Type}.

(** One rune of class [k]. *)
Definition one (k : class) (s : string) (kont : string -> option A) : option A :=
  match s with
  | EmptyString => None
  | String _ _ =>
    let (r, size) := DecodeRuneInString s in
    if class_mem k r then kont (drop size s) else None
  end.

(** Zero or more runes of class [k], as many as possible first. *)
Fixpoint many (k : class) (skip : nat) (s : string)
    (kont : string -> option A) : option A :=
  match s with
  | EmptyString => match skip with O => kont s | S _ => None end
  | String _ s' =>
    match skip with
    | S n => many k n s' kont
    | O =>
      let (r, size) := DecodeRuneInString s in
      if class_mem k r then
        match many k (Nat.pred size) s' kont with
        | Some x => Some x
        | None => kont s
        end
      else kont s
    end
  end.

Fixpoint run (re : regex) (s : string) (g : option string)
    (kont : string -> option string -> option A) : option A :=
  match re with
  | Cls k => one k s (fun s' => kont s' g)
  | EndText => match s with EmptyString => kont s g | String _ _ => None end
  | Seq r1 r2 => run r1 s g (fun s1 g1 => run r2 s1 g1 kont)
  | Alt r1 r2 =>
    match run r1 s g kont with
    | Some x => Some x
    | None => run r2 s g kont
    end
  | Plus k => one k s (fun s1 => many k 0 s1 (fun s2 => kont s2 g))
  | Group r1 =>
    run r1 s g (fun s1 _ => kont s1 (Some (take (length s - length s1) s)))
  end.

End Run.

(** A match of [re] that starts at the beginning of [s]: its length and
    what group 1 captured. *)
Definition match_at (re : regex) (s : string) : option (nat * option string) :=
  run re s None (fun s' g => Some (length s - length s', g)).

(** [re.MatchString(s)] *)
Fixpoint MatchString (re : regex) (s : string) : bool :=
  match match_at re s with
  | Some _ => true
  | None =>
    match s with
    | EmptyString => false
    | String _ s' => MatchString re s'
    end
  end.

(** The text cut into its successive leftmost matches and the bytes
    between them.  A match carries its submatches: the whole match, then
    group 1.  The expressions of [createSQL] all begin with an ASCII
    character and match at least that character, so the search may
    advance byte by byte, and the rules of Go's loop for empty matches
    are left out: an empty match is no match here. *)
Inductive piece : Type :=
| Lit (c : ascii)
| Hit (submatches : list (option string)).

Fixpoint scan (re : regex) (skip : nat) (s : string) : list piece :=
  match s with
  | EmptyString => []
  | String c s' =>
    match skip with
    | S k => scan re k s'
    | O =>
      match match_at re s with
      | Some (S n, g) => Hit [Some (take (S n) s); g] :: scan re n s'
      | _ => Lit c :: scan re 0 s'
      end
    end
  end.

Definition is_hit (p : piece) : bool :=
  match p with Hit _ => true | Lit _ => false end.

(** [re.Split(s, -1)]: the text before the first match and the list of
    the texts after each match. *)
Fixpoint segments (ps : list piece) : string * list string :=
  match ps with
  | [] => (EmptyString, [])
  | Lit c :: ps' => let (h, t) := segments ps' in (String c h, t)
  | Hit _ :: ps' => let (h, t) := segments ps' in (EmptyString, h :: t)
  end.

Definition Split (re : regex) (s : string) : list string :=
  match s with
  | EmptyString => [EmptyString]
  | String _ _ => let (h, t) := segments (scan re 0 s) in h :: t
  end.

Section Expand.
Context {tables : UnicodeTables}.

Definition is_name_rune (r : Z) : bool :=
  Unicode.IsLetter r || Unicode.IsDigit r || (r =? 0x5F)%Z.

(** The [i] at which [extract]'s loop over the name stops. *)
Fixpoint name_len (skip : nat) (s : string) : nat :=
  match s with
  | EmptyString => 0
  | String _ s' =>
    match skip with
    | S k => S (name_len k s')
    | O =>
      let (r, size) := DecodeRuneInString s in
      if is_name_rune r then S (name_len (Nat.pred size) s') else 0
    end
  end.

Fixpoint parse_num (name : string) (num : Z) : Z :=
  match name with
  | EmptyString => num
  | String c name' =>
    if ((byte c <? 0x30) || (0x39 <? byte c) || (100000000 <=? num))%Z
    then (-1)%Z
    else parse_num name' (num * 10 + byte c - 0x30)%Z
  end.

(** [extract]: the name after a [$], its number (-1 when it is not
    one) and how many bytes of [str] the reference takes. *)
Definition extract (str : string) : option (string * Z * nat) :=
  match str with
  | EmptyString => None
  | String c0 str1 =>
    let brace := Ascii.eqb c0 "{" in
    let str' := if brace then str1 else str in
    let i := name_len 0 str' in
    match i with
    | O => None
    | S _ =>
      let name := take i str' in
      let closed :=
        match drop i str' with
        | String c _ => Ascii.eqb c "}"
        | EmptyString => false
        end in
      if brace && negb closed then None
      else
        let num := parse_num name 0%Z in
        let num :=
          match name with
          | String "0" (String _ _) => (-1)%Z
          | _ => num
          end in
        Some (name, num, if brace then S (S i) else i)
    end
  end.

(** The text of submatch [num]; nothing when there is no such
    submatch or it took no part in the match.  The expressions have no
    named groups, so a name that is not a number stands for nothing. *)
Definition submatch (m : list (option string)) (num : Z) : string :=
  if ((0 <=? num) && (num <? Z.of_nat (List.length m)))%Z
  then match nth (Z.to_nat num) m None with
       | Some text => text
       | None => EmptyString
       end
  else EmptyString.

(** [re.expand]: the replacement template with its [$name], [${name}]
    and [$$] resolved against the match [m]. *)
Fixpoint expand (m : list (option string)) (skip : nat) (template : string)
    : string :=
  match template with
  | EmptyString => EmptyString
  | String c t' =>
    match skip with
    | S k => expand m k t'
    | O =>
      if Ascii.eqb c "$" then
        match t' with
        | String "$" _ => String "$" (expand m 1 t')
        | _ =>
          match extract t' with
          | None => String "$" (expand m 0 t')
          | Some (_, num, used) => submatch m num ++ expand m used t'
          end
        end
      else String c (expand m 0 t')
    end
  end.

Fixpoint replace (ps : list piece) (repl : string) : string :=
  match ps with
  | [] => EmptyString
  | Lit c :: ps' => String c (replace ps' repl)
  | Hit m :: ps' => expand m 0 repl ++ replace ps' repl
  end.

(** [re.ReplaceAllString(src, repl)] *)
Definition ReplaceAllString (re : regex) (src repl : string) : string :=
  replace (scan re 0 src) repl.

End Expand.

End Regexp.

(** ** [createSQL] *)

Module SQL.
Import Bytes Regexp.

(** [regexp.MustCompile(`\?`)] *)
Definition sqlRegexp : regex := Cls (CChar "?").

(** [regexp.MustCompile(`\$\d+`)] *)
Definition numericPlaceHolderRegexp : regex := Seq (Cls (CChar "$")) (Plus CDigit).

(** [regexp.MustCompile(fmt.Sprintf(`\$%d([^\d]|$)`, n))] *)
Definition placeholder (n : nat) : regex :=
  Seq (Cls (CChar "$"))
      (literal (Fmt.Sprint_d (Z.of_nat n)) (Group (Alt (Cls CNotDigit) EndText))).

Section CreateSQL.
Context {tables : UnicodeTables}.

(** The body of the loop over [values] in the numeric branch. *)
Definition numeric_step (sql : string) (result : string) (iv : nat * string)
    : string :=
  let (index, value) := iv in
  ReplaceAllString (placeholder (index + 1)) sql (value ++ "$1").

(** The body of the loop over the split template otherwise. *)
Definition positional_step (values : list string) (result : string)
    (iv : nat * string) : string :=
  let (index, value) := iv in
  let result := result ++ value in
  if Nat.ltb index (List.length values)
  then result ++ nth index values EmptyString
  else result.

Definition createSQL (sql : string) (values : list string) : string :=
  let result := EmptyString in
  if MatchString numericPlaceHolderRegexp sql then
    fold_left (numeric_step sql) (enumerate values) result
  else
    fold_left (positional_step values) (enumerate (Split sqlRegexp sql)) result.

End CreateSQL.

End SQL.

(** ** [time]: what the package observes of a [time.Time] *)

Module Time.
Local Open Scope Z_scope.

(** A [time.Time] as an instant ([sec], [nsec]: seconds and nanoseconds
    since January 1 of year 1, 00:00:00 UTC) together with its civil
    reading in its own location, as [t.Date()] and [t.Clock()] return
    it. *)
Record Time : Type := mkTime {
  sec : Z;
  nsec : Z;
  Year : Z;
  Month : Z;
  Day : Z;
  Hour : Z;
  Minute : Z;
  Second : Z
}.

(** The ranges [t.Date()] and [t.Clock()] keep; the year is any [int]. *)
Definition civil (t : Time) : Prop :=
  1 <= Month t <= 12 /\ 1 <= Day t <= 31 /\
  0 <= Hour t <= 23 /\ 0 <= Minute t <= 59 /\ 0 <= Second t <= 59.

(** [t.IsZero()] *)
Definition IsZero (t : Time) : bool := (sec t =? 0) && (nsec t =? 0).

Definition digit (d : Z) : ascii := ascii_of_N (Z.to_N (0x30 + d)).

(** The decimal digits of [u >= 0]; [appendInt] assembles them in a
    buffer of 20 bytes, which holds any 64-bit number. *)
Fixpoint decimal (room : nat) (u : Z) (acc : string) : string :=
  match room with
  | O => acc
  | S room' =>
    let acc' := String (digit (u mod 10)) acc in
    if u <? 10 then acc' else decimal room' (u / 10) acc'
  end.

Fixpoint zeros (n : nat) : string :=
  match n with
  | O => EmptyString
  | S n' => String "0" (zeros n')
  end.

(** [appendInt(b, x, width)]: [x] in decimal, its digits padded with
    zeros to [width], after a minus sign when it is negative. *)
Definition appendInt (x : Z) (width : nat) : string :=
  let u := Z.abs x in
  let ds := decimal 20 u EmptyString in
  let sign := if x <? 0 then "-"%string else EmptyString in
  (sign ++ zeros (width - length ds) ++ ds)%string.

(** [t.Format("2006-01-02 15:04:05")] *)
Definition Format (t : Time) : string :=
  (appendInt (Year t) 4 ++ "-" ++ appendInt (Month t) 2 ++ "-" ++
   appendInt (Day t) 2 ++ " " ++ appendInt (Hour t) 2 ++ ":" ++
   appendInt (Minute t) 2 ++ ":" ++ appendInt (Second t) 2)%string.

End Time.

(** ** The values behind [interface{}] *)

Module Dyn.

(** How a type comes by its method [Value()]: declared on the type
    itself, or, for a pointer type, declared on the type it points to (a
    value receiver), in which case Go dereferences the pointer to call
    it. *)
Inductive receiver : Type := ByPointer | ByValue.

(** A Go value by its dynamic type, as far as the package tells the
    types apart.  [Pointer elem valuer] is a pointer, nil when [elem] is
    [None]; [valuer] is set when the pointer type implements
    [driver.Valuer], with the receiver of the method.  [Valuer o] is a
    value of any other type that implements [driver.Valuer].  An
    [outcome] is what the body of the method [Value()] does when it runs:
    it returns a value and an error ([err] set: a non-nil error), or it
    panics. *)
#[warnings="-register-all"]
Inductive value : Type :=
| Nil
| Pointer (elem : option value) (valuer : option (receiver * outcome))
| TimeVal (t : Time.Time)
| ByteSlice (b : string)
| Valuer (o : outcome)
| Int (z : Z)                (* int, int8 .. int64, uint, uint8 .. uint64 *)
| Float (bits : Z)           (* float32, float64 *)
| Bool (b : bool)
| Str (s : string)
| Slice (l : list value)     (* []interface{} *)
| Other (id : Z)             (* every other dynamic type *)
with outcome : Type :=
| Returns (v : value) (err : bool)
| Panics.

Definition is_nil (v : value) : bool :=
  match v with Nil => true | _ => false end.

(** [reflect.Indirect(reflect.ValueOf(v))]; [None] is the invalid
    [reflect.Value]. *)
Definition Indirect (v : value) : option value :=
  match v with
  | Nil => None
  | Pointer elem _ => elem
  | _ => Some v
  end.

(** A run-time panic: of an index expression, of a type assertion, of
    the call of a value method through a nil pointer, or one raised by the
    body of a [Value()] method. *)
Inductive panic : Type :=
| IndexOutOfRange (index len : nat)
| InterfaceConversion (v : value) (wanted : string)
| NilReceiver
| RaisedInValue.

Inductive result (A : Type) : Type :=
| Ok (a : A)
| Panic (p : panic).
Arguments Ok {A} a.
Arguments Panic {A} p.

Definition bind {A B : Type} (m : result A) (f : A -> result B) : result B :=
  match m with
  | Ok a => f a
  | Panic p => Panic p
  end.

(** [values[i]] *)
Definition index (values : list value) (i : nat) : result value :=
  match nth_error values i with
  | Some v => Ok v
  | None => Panic (IndexOutOfRange i (List.length values))
  end.

(** [v.(string)] *)
Definition assert_string (v : value) : result string :=
  match v with
  | Str s => Ok s
  | _ => Panic (InterfaceConversion v "string")
  end.

(** [v.([]interface{})] *)
Definition assert_slice (v : value) : result (list value) :=
  match v with
  | Slice l => Ok l
  | _ => Panic (InterfaceConversion v "[]interface {}")
  end.

Definition run_outcome (o : outcome) : result (value * bool) :=
  match o with
  | Returns v err => Ok (v, err)
  | Panics => Panic RaisedInValue
  end.

(** [r, ok := v.(driver.Valuer)] and then [r.Value()]: [None] when the
    dynamic type of [v] has no method [Value()]; otherwise what the call
    does.  A method with a value receiver that is called through a nil
    pointer panics before its body runs. *)
Definition Value (v : value) : option (result (value * bool)) :=
  match v with
  | Valuer o => Some (run_outcome o)
  | Pointer _ (Some (ByPointer, o)) => Some (run_outcome o)
  | Pointer elem (Some (ByValue, o)) =>
    match elem with
    | Some _ => Some (run_outcome o)
    | None => Some (Panic NilReceiver)
    end
  | _ => None
  end.

End Dyn.

Notation "x <- m ;; k" := (Dyn.bind m (fun x => k))
  (at level 61, m at next level, right associativity).

(** [fmt]'s [%v] verb on a value, taken as given. *)
Class Formatter : Type := { Sprint_v : Dyn.value -> string }.

(** ** The SQL logger: [getFormattedValues], [createLog], [Println] *)

Module Logger.
Import Bytes Dyn SQL.

Section Trace.
Context {tables : UnicodeTables} {fmt : Formatter}.

Fixpoint all_printable (rs : list Z) : bool :=
  match rs with
  | [] => true
  | r :: rs' => if negb (Unicode.IsPrint r) then false else all_printable rs'
  end.

Definition isPrintable (s : string) : bool := all_printable (Utf8.runes s).

(** The text one pass of the loop of [getFormattedValues] appends, or
    the panic of that pass. *)
Definition format (value : value) : result string :=
  let indirectValue := Indirect value in
  match indirectValue with
  | Some value =>
    match value with
    | TimeVal t =>
      if Time.IsZero t
      then Ok (Fmt.quoted "0000-00-00 00:00:00")
      else Ok (Fmt.quoted (Time.Format t))
    | ByteSlice b =>
      let str := b in
      if isPrintable str then Ok (Fmt.quoted str) else Ok "'<binary>'"
    | _ =>
      match Value value with
      | Some call =>
        returned <- call ;;
        let (value, err) := returned in
        if negb err && negb (is_nil value)
        then Ok (Fmt.quoted (Sprint_v value))
        else Ok "NULL"
      | None =>
        match value with
        | Int _ | Float _ | Bool _ => Ok (Sprint_v value)
        | _ => Ok (Fmt.quoted (Sprint_v value))
        end
      end
    end
  | None => Ok "NULL"
  end.

Definition getFormattedValues (values : list value) : result (list string) :=
  let formattedValues := [] in
  v4 <- index values 4 ;;
  bound <- assert_slice v4 ;;
  fold_left (fun loop value =>
               formattedValues <- loop ;;
               text <- format value ;;
               Ok (formattedValues ++ [text])%list)
            bound (Ok formattedValues).

(** [level == "sql"] for an interface value [level]. *)
Definition is_sql (level : value) : bool :=
  match level with
  | Str s => String.eqb s "sql"
  | _ => false
  end.

Definition createLog (values : list value) : result string :=
  let ret := EmptyString in
  if Nat.ltb 1 (List.length values) then
    level <- index values 0 ;;
    if is_sql level then
      v3 <- index values 3 ;;
      sql <- assert_string v3 ;;
      formatted <- getFormattedValues values ;;
      Ok ("[gorm] : " ++ createSQL sql formatted)
    else Ok ret
  else Ok ret.

(** What the sugared logger was handed: [Debugf] with no arguments
    records its template as the message. *)
Inductive Level : Type := DebugLevel | InfoLevel | WarnLevel | ErrorLevel.

Record Logger : Type := mkLogger { zap : list (Level * string) }.

Definition Debugf (l : Logger) (template : string) : Logger :=
  {| zap := (zap l ++ [(DebugLevel, template)])%list |}.

Definition Println (l : Logger) (values : list value) : result Logger :=
  sql <- createLog values ;;
  if negb (String.eqb sql "") then Ok (Debugf l sql) else Ok l.

Definition Print (l : Logger) (values : list value) : result Logger :=
  Println l values.

End Trace.

End Logger.

(** ** The pipeline builder: [newEncoder], [openWriters], [buildOptions],
    [build] *)

Module Pipeline.
Import Logger.

(** [zapcore.EncoderConfig], by the keys it sets. *)
Definition EncoderConfig : Type := list (string * string).

(** The fields of [zap.Config] the builder reads. *)
Record ZapConfig : Type := mkZapConfig {
  Level : Logger.Level;
  Development : bool;
  DisableCaller : bool;
  DisableStacktrace : bool;
  Encoding : string;
  EncoderConfig_ : EncoderConfig;
  OutputPaths : list string;
  ErrorOutputPaths : list string
}.

(** [lumberjack.Logger] *)
Record Rotate : Type := mkRotate {
  Filename : string;
  MaxSize : Z;
  MaxBackups : Z;
  MaxAge : Z
}.

Record Config : Type := mkConfig {
  ZapConfig_ : ZapConfig;
  LogRotate : Rotate
}.

Inductive Encoder : Type :=
| ConsoleEncoder (cfg : EncoderConfig)
| JSONEncoder (cfg : EncoderConfig).

#[warnings="-register-all"]
Inductive WriteSyncer : Type :=
| Stdout
| Stderr
| RotatingFile (r : Rotate)
| Combined (ws : list WriteSyncer).

Inductive Option : Type :=
| ErrorOutput (w : WriteSyncer)
| DevelopmentOption
| AddCaller
| AddStacktrace (lvl : Logger.Level).

(** An [error] by its message. *)
Definition error : Type := string.

(** What [zap.New(zapcore.NewCore(enc, writer, level), opts...)] is
    built from; [None] is the nil encoder. *)
Record ZapLogger : Type := mkZapLogger {
  core_enc : option Encoder;
  core_out : WriteSyncer;
  core_level : Logger.Level;
  options : list Option
}.

Definition newEncoder (cfg : ZapConfig) : option Encoder * option error :=
  if String.eqb (Encoding cfg) "console" then
    (Some (ConsoleEncoder (EncoderConfig_ cfg)), None)
  else if String.eqb (Encoding cfg) "json" then
    (Some (JSONEncoder (EncoderConfig_ cfg)), None)
  else (None, Some "Failed to set encoder").

Definition newWriter (path : string) (rotateCfg : Rotate) : WriteSyncer :=
  if String.eqb path "stdout" then Stdout
  else if String.eqb path "stderr" then Stderr
  else RotatingFile {| Filename := Filename rotateCfg;
                       MaxSize := MaxSize rotateCfg;
                       MaxBackups := MaxBackups rotateCfg;
                       MaxAge := MaxAge rotateCfg |}.

Definition open (paths : list string) (rotateCfg : Rotate) : WriteSyncer :=
  let writers :=
    fold_left (fun writers path => (writers ++ [newWriter path rotateCfg])%list)
              paths [] in
  Combined writers.

Definition openWriters (cfg : Config) : WriteSyncer * WriteSyncer :=
  let writer := open (OutputPaths (ZapConfig_ cfg)) (LogRotate cfg) in
  let errWriter := open (ErrorOutputPaths (ZapConfig_ cfg)) (LogRotate cfg) in
  (writer, errWriter).

Definition buildOptions (cfg : ZapConfig) (errWriter : WriteSyncer) : list Option :=
  let opts := [ErrorOutput errWriter] in
  let opts := if Development cfg then (opts ++ [DevelopmentOption])%list else opts in
  let opts := if negb (DisableCaller cfg) then (opts ++ [AddCaller])%list else opts in
  let stackLevel := ErrorLevel in
  let stackLevel := if Development cfg then WarnLevel else stackLevel in
  let opts :=
    if negb (DisableStacktrace cfg)
    then (opts ++ [AddStacktrace stackLevel])%list
    else opts in
  opts.

Definition build (cfg : Config) : ZapLogger * option error :=
  let zapCfg := ZapConfig_ cfg in
  let (enc, _) := newEncoder zapCfg in
  let (writer, errWriter) := openWriters cfg in
  let log := {| core_enc := enc;
                core_out := writer;
                core_level := Level zapCfg;
                options := buildOptions zapCfg errWriter |} in
  (log, None).

End Pipeline.

(** ** What the statements below are phrased with *)

Module Spec.
Import Bytes Regexp SQL.

Definition is_digit (c : ascii) : bool := ((0x30 <=? byte c) && (byte c <=? 0x39))%Z.

Definition is_qmark (c : ascii) : bool := Ascii.eqb c "?".

(** The template holds a numeric placeholder: a [$] followed by a digit. *)
Definition has_numeric_placeholder (sql : string) : Prop :=
  exists pre d rest, sql = pre ++ String "$" (String d rest) /\ is_digit d = true.

(** The template cut at its [?]s: the text before the first one and the
    texts after each. *)
Fixpoint split_qmark (s : string) : string * list string :=
  match s with
  | EmptyString => (EmptyString, [])
  | String c s' =>
    let (h, t) := split_qmark s' in
    if is_qmark c then (EmptyString, h :: t) else (String c h, t)
  end.

(** [seg0 ? seg1 ? ... ? segn] *)
Fixpoint join_qmark (seg0 : string) (segs : list string) : string :=
  match segs with
  | [] => seg0
  | seg1 :: segs' => seg0 ++ String "?" (join_qmark seg1 segs')
  end.

Fixpoint concat (segs : list string) : string :=
  match segs with
  | [] => EmptyString
  | seg :: segs' => seg ++ concat segs'
  end.

(** The segments with the values between them, as long as there are
    values; the segments that remain follow each other directly. *)
Fixpoint interleave (segs : list string) (values : list string) : string :=
  match segs with
  | [] => EmptyString
  | seg :: segs' =>
    match values with
    | [] => seg ++ concat segs'
    | v :: values' => seg ++ v ++ interleave segs' values'
    end
  end.

(** A template that begins with one [?] after each segment of [pairs],
    [seg ? seg ? ...], and the same text with the value of each pair in
    place of its [?]. *)
Fixpoint holes (pairs : list (string * string)) : string :=
  match pairs with
  | [] => EmptyString
  | (seg, _) :: pairs' => seg ++ String "?" (holes pairs')
  end.

Fixpoint filled (pairs : list (string * string)) : string :=
  match pairs with
  | [] => EmptyString
  | (seg, v) :: pairs' => seg ++ v ++ filled pairs'
  end.

Definition no_qmark (seg : string) : Prop := count is_qmark seg = 0.

(** The bound value, once dereferenced, has a method [Value()] whose
    call panics with [p]. *)
Definition Value_panics (v : Dyn.value) (p : Dyn.panic) : Prop :=
  exists w, Dyn.Indirect v = Some w /\ Dyn.Value w = Some (Dyn.Panic p).

Definition is_dollar (c : ascii) : bool := Ascii.eqb c "$".

(** How many matches of [re] the text is cut at. *)
Definition hits (re : regex) (s : string) : nat :=
  List.length (filter is_hit (scan re 0 s)).

(** A number below 100, below 10000, in two and in four digits. *)
Definition two_digits (x : Z) : string :=
  String (Time.digit (x / 10)%Z) (String (Time.digit (x mod 10)%Z) EmptyString).

Definition four_digits (x : Z) : string :=
  String (Time.digit (x / 1000)%Z) (String (Time.digit (x / 100 mod 10)%Z)
    (String (Time.digit (x / 10 mod 10)%Z)
       (String (Time.digit (x mod 10)%Z) EmptyString))).

(** [YYYY-MM-DD HH:MM:SS]: 19 characters, digits but for the
    separators. *)
Definition datetime_form (s : string) : bool :=
  match list_ascii_of_string s with
  | [y1; y2; y3; y4; a; m1; m2; b; d1; d2; c; h1; h2; d; n1; n2; e; s1; s2] =>
    forallb is_digit [y1; y2; y3; y4; m1; m2; d1; d2; h1; h2; n1; n2; s1; s2]
    && Ascii.eqb a "-" && Ascii.eqb b "-" && Ascii.eqb c " "
    && Ascii.eqb d ":" && Ascii.eqb e ":"
  | _ => false
  end.

End Spec.

(** Concrete tables and a concrete [%v], for the closed examples: nothing
    beyond ASCII has a property, and [%v] prints strings, integers and
    booleans as Go does. *)
Module Sample.
Import Dyn Logger Pipeline.

Definition ascii_tables : UnicodeTables :=
  {| table_IsPrint := fun _ => false;
     table_IsLetter := fun _ => false;
     table_IsDigit := fun _ => false |}.

Definition plain_formatter : Formatter :=
  {| Sprint_v := fun v =>
       match v with
       | Str s => s
       | Int z => Fmt.Sprint_d z
       | Bool true => "true"
       | Bool false => "false"
       | _ => "<value>"
       end |}.

(** January 1 of year 10000, 00:00:00 UTC. *)
Definition year_10000 : Time.Time :=
  Time.mkTime 315537897600 0 10000 1 1 0 0 0.

(** The zero [time.Time]: January 1 of year 1, 00:00:00 UTC. *)
Definition zero_time : Time.Time := Time.mkTime 0 0 1 1 1 0 0 0.

(** March 4 of 2021, 05:06:07 UTC. *)
Definition march_2021 : Time.Time :=
  Time.mkTime 63750431167 0 2021 3 4 5 6 7.

(** A trace event as the ORM hands it over: tag, call site, duration,
    template, bound values, rows affected. *)
Definition select_event : list value :=
  [Str "sql"; Str "category.go:28"; Other 0;
   Str "SELECT * FROM category_master WHERE (id = ?)"; Slice [Int 1]; Int 1].

(** A pointer to a nil pointer of a type whose method [Value()] has a
    value receiver. *)
Definition nil_inside : value :=
  Pointer (Some (Pointer None (Some (ByValue, Returns (Str "v") false)))) None.

(** A trace event whose second bound value is such a pointer. *)
Definition nil_event : list value :=
  [Str "sql"; Str "category.go:28"; Other 0;
   Str "SELECT * FROM t WHERE a = ? AND b = ?"; Slice [Int 1; nil_inside];
   Int 1].

(** A trace event with a template in the numeric dialect. *)
Definition numeric_event : list value :=
  [Str "sql"; Str "category.go:28"; Other 0;
   Str "SELECT * FROM t WHERE a = $1 AND b = $2"; Slice [Int 1; Str "x"];
   Int 1].

(** A trace event with more bound values than [?]. *)
Definition surplus_event : list value :=
  [Str "sql"; Str "category.go:28"; Other 0;
   Str "SELECT ? FROM t"; Slice [Int 1; Int 2; Int 3]; Int 1].

Definition xml_config : Pipeline.Config :=
  {| ZapConfig_ := {| Level := DebugLevel;
                      Development := true;
                      DisableCaller := false;
                      DisableStacktrace := false;
                      Encoding := "xml";
                      EncoderConfig_ := [];
                      OutputPaths := ["stdout"];
                      ErrorOutputPaths := ["stderr"] |};
     LogRotate := {| Filename := "app.log"; MaxSize := 3;
                     MaxBackups := 5; MaxAge := 3 |} |}.

End Sample.

(** ** What the further statements are phrased with *)

Module Cover.
Import Bytes Dyn Logger Spec.

(** A trace event the logger takes up: more than one element, the first
    the string ["sql"]. *)
Definition tagged (values : list value) : Prop :=
  1 < List.length values /\ nth_error values 0 = Some (Str "sql").

Definition is_ascii (c : ascii) : bool := (byte c <? 0x80)%Z.

Definition printable_ascii (c : ascii) : bool :=
  ((0x20 <=? byte c) && (byte c <=? 0x7E))%Z.

(** The dynamic types of the [case int, ..., float64, bool] of the type
    switch. *)
Definition is_scalar (v : value) : bool :=
  match v with Int _ | Float _ | Bool _ => true | _ => false end.

Definition is_pointer (v : value) : bool :=
  match v with Pointer _ _ => true | _ => false end.

Definition starts_with_digit (s : string) : bool :=
  match s with String c _ => is_digit c | EmptyString => false end.

(** A logger that was handed nothing yet. *)
Definition fresh_logger : Logger := {| zap := [] |}.

End Cover.

(** * Properties *)

(** ** Bytes and strings *)

Module BytesFacts.
Import Bytes.

Lemma byte_inj (a b : ascii) : byte a = byte b -> a = b.
Proof.
  unfold byte. intros H.
  apply N2Z.inj in H.
  rewrite <- (ascii_N_embedding a), <- (ascii_N_embedding b).
  now rewrite H.
Qed.

Lemma append_nil_r (s : string) : s ++ "" = s.
Proof. induction s; simpl; congruence. Qed.

Lemma append_assoc (a b c : string) : (a ++ b) ++ c = a ++ (b ++ c).
Proof. induction a; simpl; congruence. Qed.

Lemma length_append (a b : string) : length (a ++ b) = length a + length b.
Proof. induction a; simpl; congruence. Qed.

Lemma length_remove (p : ascii -> bool) (s : string) :
  length (remove p s) + count p s = length s.
Proof.
  induction s as [|c s IH]; cbn [remove count length]; [reflexivity|].
  destruct (p c); cbn [length]; lia.
Qed.

Lemma remove_none (p : ascii -> bool) (s : string) :
  count p s = 0 -> remove p s = s.
Proof.
  induction s as [|c s IH]; simpl; [reflexivity|].
  destruct (p c); simpl; [discriminate|].
  intros H. now rewrite IH.
Qed.

Lemma length_drop (k : nat) (s : string) : length (drop k s) = length s - k.
Proof.
  revert s. induction k as [|k IH]; intros s; cbn [drop].
  - lia.
  - destruct s as [|c s]; cbn [length]; [reflexivity|]. apply IH.
Qed.

Lemma take_drop (k : nat) (s : string) : take k s ++ drop k s = s.
Proof.
  revert s. induction k as [|k IH]; intros s; cbn [take drop]; [reflexivity|].
  destruct s as [|c s]; cbn [append]; [reflexivity|]. now rewrite IH.
Qed.

Lemma take_all (k : nat) (s : string) : length s <= k -> take k s = s.
Proof.
  revert s. induction k as [|k IH]; intros s H; destruct s as [|c s];
    cbn [take length] in *; try reflexivity; try lia.
  rewrite IH by lia. reflexivity.
Qed.

Lemma count_append (p : ascii -> bool) (a b : string) :
  count p (a ++ b) = count p a + count p b.
Proof. induction a as [|c a IH]; cbn [append count]; [reflexivity|]. rewrite IH. lia. Qed.

(** What one rune off the front leaves is a suffix. *)
Lemma drop_suffix (k : nat) (s : string) :
  s = take (length s - length (drop k s)) s ++ drop k s.
Proof.
  rewrite length_drop.
  destruct (Nat.le_gt_cases k (length s)) as [H|H].
  - replace (length s - (length s - k)) with k by lia. now rewrite take_drop.
  - replace (length s - (length s - k)) with (length s) by lia.
    rewrite take_all by lia.
    assert (Hd : length (drop k s) = 0) by (rewrite length_drop; lia).
    destruct (drop k s); [now rewrite append_nil_r|discriminate].
Qed.

Lemma drop_append (a b : string) : drop (length a) (a ++ b) = b.
Proof. induction a as [|c a IH]; cbn [length append drop]; [now destruct b|exact IH]. Qed.

Lemma drop_nil (k : nat) : drop k EmptyString = EmptyString.
Proof. now destruct k. Qed.

End BytesFacts.

(** ** Decoding: an ASCII byte is a rune of its own, and no other rune is
    below 0x80 *)

Module Utf8Facts.
Import Bytes Utf8 BytesFacts.
Local Open Scope Z_scope.

Lemma decode_ascii (c : ascii) (s : string) :
  byte c < 0x80 -> DecodeRuneInString (String c s) = (byte c, 1%nat).
Proof.
  intros H. unfold DecodeRuneInString.
  destruct (Z.ltb_spec (byte c) 0x80); [reflexivity | lia].
Qed.

Lemma lor_lower (a b : Z) : 0 <= a -> 0 <= b -> a <= Z.lor a b.
Proof.
  intros Ha Hb.
  assert (Hd : Z.ldiff a (Z.lor a b) = 0).
  { apply Z.bits_inj'. intros n Hn.
    rewrite Z.ldiff_spec, Z.lor_spec, Z.bits_0.
    destruct (Z.testbit a n); reflexivity. }
  apply Z.ldiff_le in Hd; [lia|].
  now apply Z.lor_nonneg.
Qed.

Lemma lor_lower_r (a b : Z) : 0 <= a -> 0 <= b -> b <= Z.lor a b.
Proof. intros. rewrite Z.lor_comm. now apply lor_lower. Qed.

(** The payload bits of a lead or continuation byte, as a difference. *)
Lemma land_mask (b base mask : Z) :
  mask = 0x1F /\ base = 0xC0 /\ 0xC0 <= b <= 0xDF \/
  mask = 0x0F /\ base = 0xE0 /\ 0xE0 <= b <= 0xEF \/
  mask = 0x07 /\ base = 0xF0 /\ 0xF0 <= b <= 0xF7 \/
  mask = 0x3F /\ base = 0x80 /\ 0x80 <= b <= 0xBF ->
  Z.land b mask = b - base.
Proof.
  intros H.
  assert (Hb : 0 <= b < 256) by lia.
  assert (Hcases : exists n : nat, b = Z.of_nat n /\ (n < 256)%nat).
  { exists (Z.to_nat b). split; lia. }
  destruct Hcases as [n [-> Hn]].
  destruct H as [(-> & -> & H)|[(-> & -> & H)|[(-> & -> & H)|(-> & -> & H)]]];
    do 256 (destruct n as [|n]; [try lia; reflexivity|]); lia.
Qed.

Lemma shiftl_payload (x n : Z) : 0 <= n -> Z.shiftl x n = x * 2 ^ n.
Proof. intros. now apply Z.shiftl_mul_pow2. Qed.

Lemma rune2_high (b0 b1 : Z) :
  0xC2 <= b0 <= 0xDF -> 0x80 <= b1 <= 0xBF -> 0x80 <= rune2 b0 b1.
Proof.
  intros H0 H1. unfold rune2.
  rewrite (land_mask b0 0xC0 0x1F), (land_mask b1 0x80 0x3F) by lia.
  rewrite shiftl_payload by lia.
  pose proof (lor_lower ((b0 - 0xC0) * 2 ^ 6) (b1 - 0x80)).
  change (2 ^ 6) with 64 in *. lia.
Qed.

Lemma rune3_high (b0 b1 b2 : Z) :
  0xE0 <= b0 <= 0xEF -> (if b0 =? 0xE0 then 0xA0 else 0x80) <= b1 <= 0xBF ->
  0x80 <= b2 <= 0xBF -> 0x80 <= rune3 b0 b1 b2.
Proof.
  intros H0 H1 H2. unfold rune3.
  assert (0x80 <= b1) by (destruct (b0 =? 0xE0); lia).
  rewrite (land_mask b0 0xE0 0x0F), (land_mask b1 0x80 0x3F),
    (land_mask b2 0x80 0x3F) by lia.
  rewrite !shiftl_payload by lia.
  change (2 ^ 6) with 64. change (2 ^ 12) with 4096.
  pose proof (lor_lower ((b1 - 0x80) * 64) (b2 - 0x80)).
  pose proof (lor_lower ((b0 - 0xE0) * 4096)
                (Z.lor ((b1 - 0x80) * 64) (b2 - 0x80))).
  pose proof (lor_lower_r ((b0 - 0xE0) * 4096)
                (Z.lor ((b1 - 0x80) * 64) (b2 - 0x80))).
  destruct (Z.eqb_spec b0 0xE0); lia.
Qed.

Lemma rune4_high (b0 b1 b2 b3 : Z) :
  0xF0 <= b0 <= 0xF4 -> (if b0 =? 0xF0 then 0x90 else 0x80) <= b1 <= 0xBF ->
  0x80 <= b2 <= 0xBF -> 0x80 <= b3 <= 0xBF -> 0x80 <= rune4 b0 b1 b2 b3.
Proof.
  intros H0 H1 H2 H3. unfold rune4.
  assert (0x80 <= b1) by (destruct (b0 =? 0xF0); lia).
  rewrite (land_mask b0 0xF0 0x07), (land_mask b1 0x80 0x3F),
    (land_mask b2 0x80 0x3F), (land_mask b3 0x80 0x3F) by lia.
  rewrite !shiftl_payload by lia.
  change (2 ^ 6) with 64. change (2 ^ 12) with 4096.
  change (2 ^ 18) with 262144.
  pose proof (lor_lower ((b2 - 0x80) * 64) (b3 - 0x80)).
  pose proof (lor_lower ((b1 - 0x80) * 4096)
                (Z.lor ((b2 - 0x80) * 64) (b3 - 0x80))).
  pose proof (lor_lower ((b0 - 0xF0) * 262144)
                (Z.lor ((b1 - 0x80) * 4096)
                   (Z.lor ((b2 - 0x80) * 64) (b3 - 0x80)))).
  pose proof (lor_lower_r ((b0 - 0xF0) * 262144)
                (Z.lor ((b1 - 0x80) * 4096)
                   (Z.lor ((b2 - 0x80) * 64) (b3 - 0x80)))).
  destruct (Z.eqb_spec b0 0xF0); lia.
Qed.

Ltac split_tests :=
  repeat match goal with
         | H : (_ && _)%bool = true |- _ => apply andb_prop in H; destruct H
         | H : (_ <=? _) = true |- _ => apply Z.leb_le in H
         end.

Lemma decode_high (c : ascii) (s : string) :
  0x80 <= byte c -> 0x80 <= fst (DecodeRuneInString (String c s)).
Proof.
  intros H. unfold DecodeRuneInString, RuneError, cont.
  destruct (Z.ltb_spec (byte c) 0x80); [lia|].
  destruct ((0xC2 <=? byte c) && (byte c <=? 0xDF))%bool eqn:E2.
  { destruct s as [|c1 s]; cbn [fst]; [lia|].
    match goal with |- context [if ?b then _ else _] => destruct b eqn:Hok end;
      cbn [fst]; [|lia].
    split_tests. apply rune2_high; lia. }
  destruct ((0xE0 <=? byte c) && (byte c <=? 0xEF))%bool eqn:E3.
  { destruct s as [|c1 [|c2 s]]; cbn [fst]; try lia.
    match goal with |- context [if ?b then _ else _] => destruct b eqn:Hok end;
      cbn [fst]; [|lia].
    split_tests. apply rune3_high; try lia.
    destruct (byte c =? 0xE0); destruct (byte c =? 0xED); lia. }
  destruct ((0xF0 <=? byte c) && (byte c <=? 0xF4))%bool eqn:E4.
  { destruct s as [|c1 [|c2 [|c3 s]]]; cbn [fst]; try lia.
    match goal with |- context [if ?b then _ else _] => destruct b eqn:Hok end;
      cbn [fst]; [|lia].
    split_tests. apply rune4_high; try lia.
    destruct (byte c =? 0xF0); destruct (byte c =? 0xF4); lia. }
  cbn [fst]. lia.
Qed.

(** The first rune is an ASCII character exactly when the first byte is
    one; it is then that byte, one byte wide. *)
Lemma decode_low (c : ascii) (s : string) (r : Z) (size : nat) :
  DecodeRuneInString (String c s) = (r, size) -> r < 0x80 ->
  r = byte c /\ size = 1%nat.
Proof.
  intros Hd Hr.
  destruct (Z.ltb_spec (byte c) 0x80) as [Hlt|Hge].
  - rewrite decode_ascii in Hd by assumption. inversion Hd. split; reflexivity.
  - pose proof (decode_high c s Hge) as Hh. rewrite Hd in Hh. cbn [fst] in Hh. lia.
Qed.

End Utf8Facts.

(** ** The matcher on the expressions of [createSQL] *)

Module RegexpFacts.
Import Bytes Utf8 Regexp SQL Spec BytesFacts Utf8Facts.

Section Classes.
Context {A : Type}.

Lemma one_ascii (a c : ascii) (s : string) (kont : string -> option A) :
  (byte a < 0x80)%Z ->
  one (CChar a) (String c s) kont = if Ascii.eqb c a then kont s else None.
Proof.
  intros Ha. unfold one.
  destruct (DecodeRuneInString (String c s)) as [r size] eqn:Hd.
  cbn [class_mem].
  destruct (Z.eqb_spec r (byte a)) as [Hr|Hr].
  - destruct (decode_low c s r size Hd) as [Hrc ->]; [lia|].
    assert (c = a) as -> by (apply byte_inj; congruence).
    now rewrite Ascii.eqb_refl.
  - destruct (Ascii.eqb_spec c a) as [->|Hne]; [|reflexivity].
    rewrite decode_ascii in Hd by assumption.
    inversion Hd. congruence.
Qed.

Lemma one_digit (c : ascii) (s : string) (kont : string -> option A) :
  one CDigit (String c s) kont = if is_digit c then kont s else None.
Proof.
  unfold one, is_digit.
  destruct (DecodeRuneInString (String c s)) as [r size] eqn:Hd.
  cbn [class_mem].
  destruct ((0x30 <=? r) && (r <=? 0x39))%Z eqn:Hr.
  - apply andb_prop in Hr. destruct Hr as [Hlo Hhi].
    apply Z.leb_le in Hlo, Hhi.
    destruct (decode_low c s r size Hd) as [Hrc ->]; [lia|].
    subst r.
    apply Z.leb_le in Hlo, Hhi. now rewrite Hlo, Hhi.
  - destruct ((0x30 <=? byte c) && (byte c <=? 0x39))%Z eqn:Hc; [|reflexivity].
    assert (byte c < 0x80)%Z as Hlt.
    { apply andb_prop in Hc. destruct Hc as [_ Hhi].
      apply Z.leb_le in Hhi. lia. }
    rewrite decode_ascii in Hd by assumption.
    inversion Hd. subst r. congruence.
Qed.

(** When what follows cannot fail, a repetition cannot either: it may
    always stop. *)
Lemma many_total (k : class) (s : string) (kont : string -> option A) :
  (forall s', kont s' <> None) -> many k 0 s kont <> None.
Proof.
  intros Hk. destruct s as [|c s]; cbn [many]; [apply Hk|].
  destruct (DecodeRuneInString (String c s)) as [r size].
  destruct (class_mem k r); [|apply Hk].
  destruct (many k (Nat.pred size) s kont); [discriminate|apply Hk].
Qed.

End Classes.

Lemma qmark_ascii : (byte "?" < 0x80)%Z.
Proof. reflexivity. Qed.

Lemma dollar_ascii : (byte "$" < 0x80)%Z.
Proof. reflexivity. Qed.

(** [\?] matches at a [?] and nowhere else. *)
Lemma match_at_sqlRegexp (c : ascii) (s : string) :
  match_at sqlRegexp (String c s) = if is_qmark c then Some (1, None) else None.
Proof.
  unfold match_at, sqlRegexp, is_qmark. cbn [run].
  rewrite one_ascii by apply qmark_ascii.
  destruct (Ascii.eqb c "?"); [|reflexivity].
  cbn [length]. do 2 f_equal. lia.
Qed.

(** [\$\d+] matches where a [$] stands before a digit. *)
Lemma match_at_numeric (s : string) :
  match_at numericPlaceHolderRegexp s <> None <->
  exists d rest, s = String "$" (String d rest) /\ is_digit d = true.
Proof.
  unfold match_at, numericPlaceHolderRegexp. cbn [run].
  destruct s as [|c s]; [cbn [one]|].
  { split; [congruence|]. intros (d & rest & H & _). discriminate. }
  rewrite one_ascii by apply dollar_ascii.
  destruct (Ascii.eqb_spec c "$") as [->|Hc].
  - destruct s as [|d s]; [cbn [one]|].
    { split; [congruence|]. intros (d & rest & H & _). discriminate. }
    rewrite one_digit.
    destruct (is_digit d) eqn:Hd.
    + split; [|intros _; apply many_total; discriminate].
      intros _. exists d, s. split; [reflexivity|assumption].
    + split; [congruence|].
      intros (d' & rest & H & Hd'). inversion H. subst. congruence.
  - split; [congruence|].
    intros (d & rest & H & _). inversion H. congruence.
Qed.

(** The dialect test of [createSQL], in words. *)
Lemma MatchString_numeric (sql : string) :
  MatchString numericPlaceHolderRegexp sql = true <-> has_numeric_placeholder sql.
Proof.
  unfold has_numeric_placeholder.
  induction sql as [|c sql IH]; cbn [MatchString].
  - destruct (match_at numericPlaceHolderRegexp "") eqn:Hm.
    + assert (Hn : match_at numericPlaceHolderRegexp "" <> None) by congruence.
      apply match_at_numeric in Hn. destruct Hn as (d & rest & H & _).
      discriminate.
    + split; [discriminate|].
      intros (pre & d & rest & H & _). destruct pre; discriminate.
  - destruct (match_at numericPlaceHolderRegexp (String c sql)) eqn:Hm.
    + assert (Hn : match_at numericPlaceHolderRegexp (String c sql) <> None)
        by congruence.
      apply match_at_numeric in Hn. destruct Hn as (d & rest & H & Hd).
      split; [|reflexivity]. intros _.
      exists EmptyString, d, rest. split; assumption.
    + rewrite IH. split.
      * intros (pre & d & rest & H & Hd).
        exists (String c pre), d, rest. split; [|assumption].
        cbn [append]. now rewrite H.
      * intros (pre & d & rest & H & Hd).
        destruct pre as [|c' pre]; cbn [append] in H.
        -- assert (Hn : match_at numericPlaceHolderRegexp (String c sql) <> None).
           { apply match_at_numeric. exists d, rest. split; assumption. }
           congruence.
        -- inversion H. subst. exists pre, d, rest. split; [reflexivity|assumption].
Qed.

(** Cutting at the matches of [\?] is cutting at the [?]s. *)
Lemma segments_sqlRegexp (s : string) :
  segments (scan sqlRegexp 0 s) = split_qmark s.
Proof.
  induction s as [|c s IH]; [reflexivity|].
  cbn [scan split_qmark]. rewrite match_at_sqlRegexp.
  destruct (is_qmark c); cbn [segments]; rewrite IH; reflexivity.
Qed.

Lemma Split_sqlRegexp (s : string) :
  Split sqlRegexp s = let (h, t) := split_qmark s in h :: t.
Proof.
  destruct s as [|c s]; [reflexivity|].
  unfold Split. now rewrite segments_sqlRegexp.
Qed.

Lemma split_qmark_append (seg s : string) :
  count is_qmark seg = 0 ->
  split_qmark (seg ++ s) = let (h, t) := split_qmark s in (seg ++ h, t).
Proof.
  induction seg as [|c seg IH]; cbn [append count split_qmark].
  - intros _. now destruct (split_qmark s).
  - destruct (is_qmark c) eqn:Hc; [discriminate|].
    intros H. rewrite IH by exact H.
    destruct (split_qmark s). reflexivity.
Qed.

Lemma split_qmark_none (seg : string) :
  count is_qmark seg = 0 -> split_qmark seg = (seg, []).
Proof.
  intros H. rewrite <- (append_nil_r seg) at 1.
  rewrite split_qmark_append by exact H.
  cbn. now rewrite append_nil_r.
Qed.

Lemma split_qmark_hole (seg s : string) :
  count is_qmark seg = 0 ->
  split_qmark (seg ++ String "?" s) = let (h, t) := split_qmark s in (seg, h :: t).
Proof.
  intros H. rewrite split_qmark_append by exact H.
  cbn [split_qmark]. change (is_qmark "?") with true.
  destruct (split_qmark s). now rewrite append_nil_r.
Qed.

Lemma split_join (seg0 : string) (segs : list string) :
  Forall (fun seg => count is_qmark seg = 0) (seg0 :: segs) ->
  split_qmark (join_qmark seg0 segs) = (seg0, segs).
Proof.
  revert seg0. induction segs as [|seg1 segs IH]; intros seg0 H; cbn [join_qmark].
  - apply split_qmark_none. now inversion H.
  - inversion H as [|? ? H0 Hrest]; subst.
    rewrite split_qmark_hole by exact H0.
    now rewrite IH by exact Hrest.
Qed.

Lemma concat_split (s : string) :
  (let (h, t) := split_qmark s in h ++ concat t) = remove is_qmark s.
Proof.
  induction s as [|c s IH]; [reflexivity|].
  cbn [split_qmark remove].
  destruct (split_qmark s) as [h t].
  destruct (is_qmark c); cbn [concat append]; now rewrite <- IH.
Qed.

(** *** The placeholder expression and its replacement *)

Lemma digits_of_uint (d : Decimal.uint) :
  all is_digit (NilEmpty.string_of_uint d) = true.
Proof. induction d; cbn [NilEmpty.string_of_uint all]; try reflexivity; exact IHd. Qed.

Lemma Sprint_d_digits (n : nat) : all is_digit (Fmt.Sprint_d (Z.of_nat n)) = true.
Proof.
  unfold Fmt.Sprint_d, NilZero.string_of_int.
  destruct (Z.of_nat n) as [|p|p] eqn:Hn; [reflexivity| |lia].
  cbn [Z.to_int]. unfold NilZero.string_of_uint.
  destruct (Pos.to_uint p) eqn:Hp; try (rewrite <- Hp; apply digits_of_uint).
  reflexivity.
Qed.

Lemma is_digit_ascii (c : ascii) : is_digit c = true -> (byte c < 0x80)%Z.
Proof.
  unfold is_digit. intros H. apply andb_prop in H. destruct H as [_ H].
  apply Z.leb_le in H. lia.
Qed.

Lemma is_digit_not_qmark (c : ascii) : is_digit c = true -> is_qmark c = false.
Proof.
  unfold is_qmark. intros H.
  destruct (Ascii.eqb_spec c "?") as [->|]; [discriminate H|reflexivity].
Qed.

Lemma digits_no_qmark (ds : string) : all is_digit ds = true -> count is_qmark ds = 0.
Proof.
  induction ds as [|c ds IH]; cbn [all count]; [reflexivity|].
  intros H. apply andb_prop in H. destruct H as [Hc Hds].
  rewrite (is_digit_not_qmark c Hc). now apply IH.
Qed.

Section Placeholder.
Context {A : Type}.

Lemma run_literal (ds : string) (r : regex) (s : string) (g : option string)
    (K : string -> option string -> option A) (x : A) :
  all is_digit ds = true ->
  run (literal ds r) s g K = Some x ->
  exists rest, s = ds ++ rest /\ run r rest g K = Some x.
Proof.
  revert s. induction ds as [|d ds IH]; intros s Hd H; cbn [literal] in H.
  - exists s. split; [reflexivity|exact H].
  - cbn [all] in Hd. apply andb_prop in Hd. destruct Hd as [Hd Hds].
    cbn [run] in H.
    destruct s as [|c s]; [discriminate H|].
    rewrite one_ascii in H by now apply is_digit_ascii.
    destruct (Ascii.eqb_spec c d) as [->|]; [|discriminate H].
    destruct (IH s Hds H) as (rest & -> & Hr).
    exists rest. split; [reflexivity|exact Hr].
Qed.

Lemma run_tail (s : string) (g : option string)
    (K : string -> option string -> option A) (x : A) :
  run (Group (Alt (Cls CNotDigit) EndText)) s g K = Some x ->
  exists gt rest, s = gt ++ rest /\ K rest (Some gt) = Some x.
Proof.
  cbn [run]. destruct s as [|c s].
  - cbn [one length Nat.sub take]. intros H.
    exists EmptyString, EmptyString. split; [reflexivity|exact H].
  - unfold one.
    destruct (DecodeRuneInString (String c s)) as [r size].
    destruct (class_mem CNotDigit r); [|discriminate].
    set (s0 := String c s).
    destruct (K (drop size s0) (Some (take (length s0 - length (drop size s0)) s0)))
      eqn:Hk; [|discriminate].
    intros H. inversion H; subst.
    eexists _, _. split; [apply (drop_suffix size s0)|exact Hk].
Qed.

End Placeholder.

(** A match of the placeholder expression is [$], the digits of the
    number, and what group 1 took: one more character, or nothing at the
    end of the text. *)
Lemma match_at_placeholder (n : nat) (s : string) (len : nat) (g : option string) :
  match_at (placeholder n) s = Some (len, g) ->
  exists gt rest,
    g = Some gt
    /\ s = String "$" (Fmt.Sprint_d (Z.of_nat n) ++ gt ++ rest)
    /\ len = length (String "$" (Fmt.Sprint_d (Z.of_nat n) ++ gt)).
Proof.
  unfold match_at, placeholder. cbn [run]. intros H.
  destruct s as [|c s]; [discriminate H|].
  rewrite one_ascii in H by apply dollar_ascii.
  destruct (Ascii.eqb_spec c "$") as [->|]; [|discriminate H].
  apply run_literal in H; [|apply Sprint_d_digits].
  destruct H as (rest1 & -> & H).
  apply run_tail in H. destruct H as (gt & rest & -> & H).
  inversion H; subst. exists gt, rest.
  split; [reflexivity|]. split; [reflexivity|].
  change (length (String "$" (Fmt.Sprint_d (Z.of_nat n) ++ gt ++ rest)))
    with (S (length (Fmt.Sprint_d (Z.of_nat n) ++ gt ++ rest))).
  cbn [length]. rewrite !length_append. destruct (length rest); lia.
Qed.

Section Replace.
Context {tables : UnicodeTables}.

(** A replacement text without [$] of its own, followed by [$1]: the
    text, then what group 1 took. *)
Lemma expand_plain (m : list (option string)) (v : string) :
  count is_dollar v = 0 -> expand m 0 (v ++ "$1") = v ++ submatch m 1.
Proof.
  induction v as [|c v IH]; cbn [append count].
  - intros _. cbn. now rewrite append_nil_r.
  - unfold is_dollar at 1. cbn [expand].
    destruct (Ascii.eqb c "$"); [discriminate|].
    intros H. now rewrite IH.
Qed.

Lemma replace_count (n : nat) (v s : string) (skip : nat) :
  count is_dollar v = 0 ->
  skip <= length s ->
  count is_qmark (replace (scan (placeholder n) skip s) (v ++ "$1"))
  = count is_qmark (drop skip s)
    + List.length (filter is_hit (scan (placeholder n) skip s)) * count is_qmark v.
Proof.
  intros Hv. revert skip. induction s as [|c s IH]; intros skip Hk.
  - rewrite drop_nil. reflexivity.
  - destruct skip as [|k].
    + cbn [scan drop].
      destruct (match_at (placeholder n) (String c s)) as [[[|len] g]|] eqn:Hm;
        try (cbn [replace filter is_hit count]; rewrite (IH 0) by lia;
             cbn [drop]; lia).
      destruct (match_at_placeholder n _ _ _ Hm) as (gt & rest & -> & Hs & Hl).
      injection Hs as Hc Hs'.
      assert (Hlen : len = length (Fmt.Sprint_d (Z.of_nat n) ++ gt))
        by (cbn [length] in Hl; lia).
      assert (Hle : len <= length s)
        by (rewrite Hs', Hlen, !length_append; lia).
      assert (Hdrop : drop len s = rest)
        by (rewrite Hs', Hlen, <- append_assoc; apply drop_append).
      assert (Hcount : count is_qmark s = count is_qmark gt + count is_qmark rest).
      { rewrite Hs', !count_append.
        now rewrite (digits_no_qmark _ (Sprint_d_digits n)). }
      cbn [replace filter is_hit List.length].
      rewrite expand_plain by exact Hv.
      change (submatch [Some (take (S len) (String c s)); Some gt] 1) with gt.
      rewrite !count_append, (IH len Hle), Hdrop.
      cbn [count]. rewrite Hcount, Hc.
      change (is_qmark "$") with false. cbn iota. lia.
    + cbn [scan drop]. cbn [length] in Hk. apply IH. lia.
Qed.

Lemma ReplaceAllString_count (n : nat) (v sql : string) :
  count is_dollar v = 0 ->
  count is_qmark (ReplaceAllString (placeholder n) sql (v ++ "$1"))
  = count is_qmark sql + hits (placeholder n) sql * count is_qmark v.
Proof.
  intros Hv. unfold ReplaceAllString, hits.
  rewrite replace_count by (try exact Hv; lia). reflexivity.
Qed.

End Replace.

End RegexpFacts.

(** ** [createSQL] *)

Module SQLFacts.
Import Bytes Regexp SQL Spec BytesFacts RegexpFacts.

Lemma interleave_nil (segs : list string) : interleave segs [] = concat segs.
Proof. destruct segs; reflexivity. Qed.

Lemma skipn_nth (values : list string) (k : nat) :
  k < List.length values ->
  skipn k values = nth k values EmptyString :: skipn (S k) values.
Proof.
  revert k. induction values as [|v values IH]; intros k Hk; cbn [List.length] in Hk.
  - lia.
  - destruct k as [|k]; [reflexivity|].
    cbn [skipn nth]. apply IH. lia.
Qed.

Lemma enumerate_from_snoc {A : Type} (l : list A) (x : A) (k : nat) :
  combine (seq k (List.length (l ++ [x]))) (l ++ [x])
  = (combine (seq k (List.length l)) l ++ [(k + List.length l, x)])%list.
Proof.
  revert k. induction l as [|y l IH]; intros k.
  - cbn. now rewrite Nat.add_0_r.
  - cbn [List.length app seq combine]. rewrite IH.
    now rewrite Nat.add_succ_r.
Qed.

Lemma enumerate_snoc {A : Type} (l : list A) (x : A) :
  enumerate (l ++ [x]) = (enumerate l ++ [(List.length l, x)])%list.
Proof. unfold enumerate. now rewrite enumerate_from_snoc. Qed.

Section CreateSQL.
Context {tables : UnicodeTables}.

(** The loop of the positional branch, from any index on. *)
Lemma positional_fold (values segs : list string) (k : nat) (acc : string) :
  fold_left (positional_step values)
            (combine (seq k (List.length segs)) segs) acc
  = acc ++ interleave segs (skipn k values).
Proof.
  revert k acc. induction segs as [|seg segs IH]; intros k acc.
  - cbn. now rewrite append_nil_r.
  - cbn [List.length seq combine fold_left positional_step].
    rewrite IH.
    destruct (Nat.ltb_spec k (List.length values)) as [Hk|Hk].
    + rewrite (skipn_nth values k Hk). cbn [interleave].
      now rewrite !append_assoc.
    + rewrite (skipn_all2 values) by lia.
      rewrite (skipn_all2 values) by lia.
      cbn [interleave]. rewrite interleave_nil.
      now rewrite append_assoc.
Qed.

Lemma createSQL_positional (sql : string) (values : list string) :
  MatchString numericPlaceHolderRegexp sql = false ->
  createSQL sql values
  = let (seg0, segs) := split_qmark sql in interleave (seg0 :: segs) values.
Proof.
  intros Hm. unfold createSQL, enumerate. rewrite Hm.
  rewrite positional_fold, Split_sqlRegexp.
  now destruct (split_qmark sql).
Qed.

(** The loop of the numeric branch keeps what its last pass computes,
    and every pass starts from the template. *)
Lemma numeric_fold (sql : string) (values : list string) :
  fold_left (numeric_step sql) (enumerate values) EmptyString
  = match rev values with
    | [] => EmptyString
    | value :: _ =>
      ReplaceAllString (placeholder (List.length values)) sql (value ++ "$1")
    end.
Proof.
  induction values as [|value values _] using rev_ind; [reflexivity|].
  rewrite enumerate_snoc, fold_left_app, rev_app_distr, length_app.
  cbn [fold_left rev app numeric_step List.length].
  reflexivity.
Qed.

(** C1: on the two-placeholder template the numeric branch returns the
    template with only its last placeholder resolved: [$1] is still in
    the output, which is not the fully substituted statement. *)
Theorem createSQL_numeric_last_only :
  createSQL "SELECT * FROM t WHERE a = $1 AND b = $2" ["1"; "'x'"]
  = "SELECT * FROM t WHERE a = $1 AND b = 'x'"
  /\ createSQL "SELECT * FROM t WHERE a = $1 AND b = $2" ["1"; "'x'"]
     <> "SELECT * FROM t WHERE a = 1 AND b = 'x'".
Proof.
  assert (H : createSQL "SELECT * FROM t WHERE a = $1 AND b = $2" ["1"; "'x'"]
              = "SELECT * FROM t WHERE a = $1 AND b = 'x'")
    by (vm_compute; reflexivity).
  split; [exact H|]. rewrite H. discriminate.
Qed.

(** C2, amended: with no values, a template that holds no numeric
    placeholder comes back with every [?] removed, hence unchanged
    exactly when it holds no [?] either. *)
Theorem createSQL_no_values (sql : string) :
  MatchString numericPlaceHolderRegexp sql = false ->
  createSQL sql [] = remove is_qmark sql
  /\ (createSQL sql [] = sql <-> count is_qmark sql = 0).
Proof.
  intros Hm.
  assert (H : createSQL sql [] = remove is_qmark sql).
  { rewrite createSQL_positional by exact Hm.
    rewrite <- concat_split. destruct (split_qmark sql) as [seg0 segs].
    reflexivity. }
  split; [exact H|]. rewrite H. split.
  - intros Hr. pose proof (length_remove is_qmark sql) as Hl.
    rewrite Hr in Hl. lia.
  - apply remove_none.
Qed.

Lemma split_holes (pairs : list (string * string)) (rest : string) :
  Forall no_qmark (map fst pairs) ->
  (let (seg0, segs) := split_qmark (holes pairs ++ rest) in
   interleave (seg0 :: segs) (map snd pairs))
  = filled pairs ++ remove is_qmark rest.
Proof.
  induction pairs as [|[seg v] pairs IH]; intros Hq.
  - cbn [holes filled map append]. rewrite <- concat_split.
    now destruct (split_qmark rest).
  - cbn [map fst] in Hq. inversion Hq as [|? ? Hseg Hrest]; subst.
    cbn [holes filled map snd].
    rewrite append_assoc. cbn [append].
    rewrite split_qmark_hole by exact Hseg.
    specialize (IH Hrest).
    destruct (split_qmark (holes pairs ++ rest)) as [seg0 segs].
    change (interleave (seg :: seg0 :: segs) (v :: map snd pairs))
      with (seg ++ v ++ interleave (seg0 :: segs) (map snd pairs)).
    rewrite IH. now rewrite !append_assoc.
Qed.

(** C3, amended: in the positional dialect the values take the place
    of the first [?]s, one each; every [?] past the last value is
    dropped, so that the segments around it follow each other
    directly. *)
Theorem createSQL_positional_short
    (pairs : list (string * string)) (seg0 : string) (segs : list string) :
  Forall no_qmark (map fst pairs) ->
  Forall no_qmark (seg0 :: segs) ->
  MatchString numericPlaceHolderRegexp (holes pairs ++ join_qmark seg0 segs)
  = false ->
  createSQL (holes pairs ++ join_qmark seg0 segs) (map snd pairs)
  = filled pairs ++ concat (seg0 :: segs).
Proof.
  intros Hp Hs Hm.
  rewrite createSQL_positional by exact Hm.
  rewrite split_holes by exact Hp.
  rewrite <- concat_split, split_join by exact Hs.
  reflexivity.
Qed.

(** C9: a template that holds a numeric placeholder is handled by the
    numeric branch alone, whatever [?] it holds: the result is what
    [ReplaceAllString] makes of the template for the last value, and
    nothing is split at a [?].  When that value brings no [$] of its own,
    every [?] of the template is still in the result, next to those of
    the copies of the value. *)
Theorem createSQL_numeric_exclusive (sql : string) (values : list string) :
  has_numeric_placeholder sql ->
  createSQL sql values
  = match rev values with
    | [] => EmptyString
    | value :: _ =>
      ReplaceAllString (placeholder (List.length values)) sql (value ++ "$1")
    end
  /\ (forall value before,
        rev values = value :: before ->
        count is_dollar value = 0 ->
        count is_qmark (createSQL sql values)
        = count is_qmark sql
          + hits (placeholder (List.length values)) sql * count is_qmark value).
Proof.
  intros H. apply MatchString_numeric in H.
  assert (Hc : createSQL sql values
               = match rev values with
                 | [] => EmptyString
                 | value :: _ =>
                   ReplaceAllString (placeholder (List.length values)) sql
                     (value ++ "$1")
                 end)
    by (unfold createSQL; rewrite H; apply numeric_fold).
  split; [exact Hc|].
  intros value before Hr Hv. rewrite Hc, Hr.
  now apply ReplaceAllString_count.
Qed.

End CreateSQL.

End SQLFacts.

(** ** [appendInt] and the layout of [Format] *)

Module TimeFacts.
Import Bytes Time Spec.
Local Open Scope Z_scope.

Lemma appendInt2_table :
  forallb (fun n => String.eqb (appendInt (Z.of_nat n) 2) (two_digits (Z.of_nat n)))
          (seq 0 100) = true.
Proof. vm_compute. reflexivity. Qed.

Lemma appendInt4_table :
  forallb (fun n => String.eqb (appendInt (Z.of_nat n) 4) (four_digits (Z.of_nat n)))
          (seq 0 (100 * 100)) = true.
Proof. vm_compute. reflexivity. Qed.

Lemma appendInt2 (x : Z) : 0 <= x <= 99 -> appendInt x 2 = two_digits x.
Proof.
  intros H. pose proof appendInt2_table as T.
  rewrite forallb_forall in T.
  specialize (T (Z.to_nat x)).
  rewrite Z2Nat.id in T by lia.
  apply String.eqb_eq, T, in_seq. lia.
Qed.

Lemma appendInt4 (x : Z) : 0 <= x <= 9999 -> appendInt x 4 = four_digits x.
Proof.
  intros H. pose proof appendInt4_table as T.
  rewrite forallb_forall in T.
  specialize (T (Z.to_nat x)).
  rewrite Z2Nat.id in T by lia.
  apply String.eqb_eq, T, in_seq. lia.
Qed.

Lemma is_digit_digit (d : Z) : 0 <= d <= 9 -> is_digit (digit d) = true.
Proof.
  intros H.
  assert (Hd : exists n : nat, d = Z.of_nat n /\ (n < 10)%nat)
    by (exists (Z.to_nat d); lia).
  destruct Hd as [n [-> Hn]].
  do 10 (destruct n as [|n]; [reflexivity|]). lia.
Qed.

Lemma is_digit_mod (x : Z) : is_digit (digit (x mod 10)) = true.
Proof. apply is_digit_digit. pose proof (Z.mod_pos_bound x 10). lia. Qed.

(** A civil reading with a year of at most four digits prints in the
    19 characters of the layout. *)
Lemma Format_form (t : Time) :
  civil t -> 0 <= Year t <= 9999 -> datetime_form (Format t) = true.
Proof.
  intros (Hmo & Hd & Hh & Hmi & Hs) Hy. unfold Format.
  rewrite appendInt4 by lia. rewrite !appendInt2 by lia.
  unfold four_digits, two_digits, datetime_form.
  cbn [append list_ascii_of_string forallb].
  rewrite !is_digit_mod.
  rewrite !is_digit_digit by (Z.div_mod_to_equations; lia).
  reflexivity.
Qed.

End TimeFacts.

(** ** The value formatter and the trace filter *)

Module LoggerFacts.
Import Bytes Dyn SQL Spec Logger BytesFacts TimeFacts.

Section Trace.
Context {tables : UnicodeTables} {fmt : Formatter}.




(** C8, amended: the zero time is formatted as
    ['0000-00-00 00:00:00']; any other time whose year lies between 0
    and 9999 as a quoted text of 19 characters of the form
    [YYYY-MM-DD HH:MM:SS]. *)
Theorem format_time (t : Time.Time) :
  (Time.IsZero t = true -> format (TimeVal t) = Ok "'0000-00-00 00:00:00'")
  /\ (Time.IsZero t = false -> Time.civil t -> (0 <= Time.Year t <= 9999)%Z ->
      exists body,
        format (TimeVal t) = Ok ("'" ++ body ++ "'")
        /\ length body = 19 /\ datetime_form body = true).
Proof.
  unfold format. cbn [Indirect]. split.
  - intros ->. reflexivity.
  - intros -> Hc Hy. exists (Time.Format t).
    pose proof (Format_form t Hc Hy) as Hf.
    split; [reflexivity|]. split; [|exact Hf].
    unfold datetime_form in Hf.
    rewrite <- (string_of_list_ascii_of_string (Time.Format t)).
    destruct (list_ascii_of_string (Time.Format t))
      as [|? [|? [|? [|? [|? [|? [|? [|? [|? [|? [|? [|? [|? [|? [|?
          [|? [|? [|? [|? [|? ?]]]]]]]]]]]]]]]]]]]];
      try discriminate Hf.
    reflexivity.
Qed.

(** A bound value is formatted unless the call of its [Value()]
    panics. *)
Lemma format_panics (v : value) (p : panic) :
  format v = Panic p <-> Value_panics v p.
Proof.
  unfold format, Value_panics. destruct (Indirect v) as [w|].
  - split.
    + intros H. exists w. split; [reflexivity|].
      destruct w; cbv beta iota in H;
        try (destruct (Time.IsZero _); discriminate H);
        try (destruct (isPrintable _); discriminate H);
        (destruct (Value _) as [[[r err]|q]|]; cbn [bind] in H;
         [ destruct (negb err && negb (is_nil r)); discriminate H
         | now inversion H
         | discriminate H ]).
    + intros (w' & Hw & Hv). inversion Hw. subst w'.
      destruct w; try discriminate Hv; cbv beta iota; now rewrite Hv.
  - split; [discriminate|]. intros (w & Hw & _). discriminate Hw.
Qed.

Lemma format_returns (v : value) :
  (exists text, format v = Ok text) <-> (forall p, ~ Value_panics v p).
Proof.
  split.
  - intros [text H] p Hp. apply format_panics in Hp. congruence.
  - intros Hn. destruct (format v) as [text|p] eqn:H; [now exists text|].
    apply format_panics in H. now elim (Hn p).
Qed.

(** One pass of the loop of [getFormattedValues]. *)
Local Abbreviation pass :=
  (fun loop value =>
     formattedValues <- loop ;;
     text <- format value ;;
     Ok (formattedValues ++ [text])%list).

Lemma loop_panic (bound : list value) (p : panic) :
  fold_left pass bound (Panic p) = Panic p.
Proof. induction bound as [|v bound IH]; [reflexivity|exact IH]. Qed.

(** The loop returns exactly the texts of the bound values, in order,
    after those it began with. *)
Lemma loop_returns (bound : list value) (acc formatted : list string) :
  fold_left pass bound (Ok acc) = Ok formatted
  <-> exists texts,
        Forall2 (fun v text => format v = Ok text) bound texts
        /\ formatted = (acc ++ texts)%list.
Proof.
  revert acc. induction bound as [|v bound IH]; intros acc; cbn [fold_left].
  - split.
    + intros H. inversion H. exists []. split; [constructor|now rewrite app_nil_r].
    + intros (texts & Hf & ->). inversion Hf. now rewrite app_nil_r.
  - cbn [bind].
    destruct (format v) as [text|p] eqn:Hv; cbn [bind].
    + rewrite IH. split.
      * intros (texts & Hf & ->). exists (text :: texts).
        split; [now constructor|]. now rewrite <- app_assoc.
      * intros (texts & Hf & ->). inversion Hf as [|? t ? texts' Ht Hrest]; subst.
        assert (t = text) as -> by congruence.
        exists texts'. split; [exact Hrest|]. now rewrite <- app_assoc.
    + rewrite loop_panic. split; [discriminate|].
      intros (texts & Hf & _). inversion Hf. congruence.
Qed.


Lemma texts_exist (bound : list value) :
  Forall (fun v => forall p, ~ Value_panics v p) bound ->
  exists texts, Forall2 (fun v text => format v = Ok text) bound texts.
Proof.
  induction 1 as [|v bound Hv _ [texts IH]].
  - exists []. constructor.
  - apply format_returns in Hv. destruct Hv as [text Hv].
    exists (text :: texts). now constructor.
Qed.

Lemma getFormattedValues_returns (values bound : list value)
    (formatted : list string) :
  nth_error values 4 = Some (Slice bound) ->
  getFormattedValues values = Ok formatted
  <-> Forall2 (fun v text => format v = Ok text) bound formatted.
Proof.
  intros H. unfold getFormattedValues, index. rewrite H.
  cbn [bind assert_slice]. rewrite loop_returns. cbn [app]. split.
  - intros (texts & Hf & ->). exact Hf.
  - intros Hf. now exists formatted.
Qed.


Lemma getFormattedValues_shape (v0 v1 v2 v3 : value) (bound rest : list value)
    (texts : list string) :
  Forall2 (fun v text => format v = Ok text) bound texts ->
  getFormattedValues (v0 :: v1 :: v2 :: v3 :: Slice bound :: rest) = Ok texts.
Proof.
  intros Hf.
  now apply (getFormattedValues_returns _ bound texts).
Qed.

Lemma createLog_shape (v1 v2 : value) (sql : string) (bound rest : list value)
    (texts : list string) :
  Forall2 (fun v text => format v = Ok text) bound texts ->
  createLog (Str "sql" :: v1 :: v2 :: Str sql :: Slice bound :: rest)
  = Ok ("[gorm] : " ++ createSQL sql texts).
Proof.
  intros Hf. unfold createLog, index.
  cbn [List.length Nat.ltb Nat.leb nth_error bind is_sql assert_string].
  change (String.eqb "sql" "sql") with true. cbv iota.
  rewrite (getFormattedValues_shape _ _ _ _ _ _ texts Hf). reflexivity.
Qed.

Lemma texts_of_pairs (bound : list value) (pairs : list (string * string)) :
  Forall2 (fun v pair => format v = Ok (snd pair)) bound pairs ->
  Forall2 (fun v text => format v = Ok text) bound (map snd pairs).
Proof. induction 1; cbn [map]; now constructor. Qed.

(** C4, amended: for a loggable SQL trace event whose template is in the
    positional dialect with one [?] per bound value, each bound value
    being formatted, the line is the fixed prefix [[gorm] : ] followed by
    the fully interpolated statement, the template with each [?] replaced
    by the formatted value at its position; [Println] hands that line to
    the logger at debug level. *)
Theorem createLog_line (l : Logger) (v1 v2 : value)
    (pairs : list (string * string)) (seg : string) (bound rest : list value) :
  Forall no_qmark (map fst pairs) ->
  no_qmark seg ->
  Regexp.MatchString numericPlaceHolderRegexp (holes pairs ++ seg) = false ->
  Forall2 (fun v pair => format v = Ok (snd pair)) bound pairs ->
  let values :=
    Str "sql" :: v1 :: v2 :: Str (holes pairs ++ seg) :: Slice bound :: rest in
  let line := "[gorm] : " ++ filled pairs ++ seg in
  createLog values = Ok line
  /\ Println l values = Ok {| zap := (zap l ++ [(DebugLevel, line)])%list |}.
Proof.
  intros Hp Hs Hm Hb values line.
  assert (H : createLog values = Ok line).
  { unfold values, line.
    rewrite (createLog_shape _ _ _ _ _ _ (texts_of_pairs _ _ Hb)).
    rewrite SQLFacts.createSQL_positional by exact Hm.
    rewrite SQLFacts.split_holes by exact Hp.
    now rewrite (remove_none _ _ Hs). }
  split; [exact H|].
  unfold Println. rewrite H. reflexivity.
Qed.

(** C6, amended: for a list tagged ["sql"] a line is produced only
    if the list has at least five elements, the fourth a string and the
    fifth a sequence of values.  A tagged list of two, three or four
    elements makes [createLog] panic instead of returning the empty
    result: by an index out of range, or, for four elements the last of
    which is not a string, by the failed assertion of that element to
    [string]. *)
Theorem createLog_sql_shape (values : list value) :
  1 < List.length values ->
  nth_error values 0 = Some (Str "sql") ->
  (forall line,
      createLog values = Ok line ->
      5 <= List.length values
      /\ (exists sql, nth_error values 3 = Some (Str sql))
      /\ (exists bound, nth_error values 4 = Some (Slice bound)))
  /\ (List.length values <= 3 ->
      createLog values = Panic (IndexOutOfRange 3 (List.length values)))
  /\ (List.length values = 4 ->
      exists v3,
        nth_error values 3 = Some v3
        /\ createLog values
           = match v3 with
             | Str _ => Panic (IndexOutOfRange 4 4)
             | _ => Panic (InterfaceConversion v3 "string")
             end).
Proof.
  intros Hlen Htag.
  assert (Hcl : createLog values
                = (v3 <- index values 3 ;;
                   sql <- assert_string v3 ;;
                   formatted <- getFormattedValues values ;;
                   Ok ("[gorm] : " ++ createSQL sql formatted))).
  { unfold createLog.
    destruct (Nat.ltb_spec 1 (List.length values)); [|lia].
    unfold index at 1. rewrite Htag. reflexivity. }
  rewrite Hcl. unfold getFormattedValues, index.
  split; [|split].
  - intros line.
    destruct (nth_error values 3) as [v3|] eqn:H3; cbn [bind]; [|discriminate].
    destruct v3; cbn [assert_string bind]; try discriminate.
    destruct (nth_error values 4) as [v4|] eqn:H4; cbn [bind]; [|discriminate].
    destruct v4; cbn [assert_slice bind]; try discriminate.
    intros _. split; [|split; eexists; reflexivity].
    assert (4 < List.length values); [|lia].
    apply nth_error_Some. congruence.
  - intros H.
    destruct (nth_error values 3) eqn:H3; [|reflexivity].
    assert (3 < List.length values); [|lia].
    apply nth_error_Some. congruence.
  - intros H.
    destruct (nth_error values 3) as [v3|] eqn:H3.
    + exists v3. split; [reflexivity|].
      assert (H4 : nth_error values 4 = None) by (apply nth_error_None; lia).
      rewrite H4, H. destruct v3; reflexivity.
    + apply nth_error_None in H3. lia.
Qed.

End Trace.

End LoggerFacts.

(** ** The pipeline builder *)

Module PipelineFacts.
Import Pipeline.

(** C5: for an encoding that is neither [console] nor [json],
    [newEncoder] reports its error, and [build] drops it: [build] returns
    a logger without encoder and no error. *)
Theorem build_drops_encoder_error (cfg : Config) :
  String.eqb (Encoding (ZapConfig_ cfg)) "console" = false ->
  String.eqb (Encoding (ZapConfig_ cfg)) "json" = false ->
  snd (newEncoder (ZapConfig_ cfg)) = Some "Failed to set encoder"
  /\ snd (build cfg) = None
  /\ core_enc (fst (build cfg)) = None.
Proof.
  intros Hc Hj. unfold build, newEncoder. rewrite Hc, Hj.
  cbn. repeat split.
Qed.

Lemma build_never_fails (cfg : Config) : snd (build cfg) = None.
Proof.
  unfold build. destruct (newEncoder (ZapConfig_ cfg)).
  destruct (openWriters cfg). reflexivity.
Qed.

End PipelineFacts.

(** ** Closed instances: the statements above at concrete inputs, and the
    inputs at which the specification's wording fails *)

Module Examples.
Import Bytes Dyn Regexp SQL Spec Logger Pipeline Sample.
Import SQLFacts LoggerFacts PipelineFacts.

#[local] Existing Instance ascii_tables.
#[local] Existing Instance plain_formatter.

(** C2: with no values, a template with a [?] does not come back
    unchanged. *)
Lemma createSQL_no_values_not_identity :
  createSQL "SELECT * FROM t WHERE a = ?" [] <> "SELECT * FROM t WHERE a = ?".
Proof.
  assert (H : createSQL "SELECT * FROM t WHERE a = ?" []
              = "SELECT * FROM t WHERE a = ")
    by (vm_compute; reflexivity).
  rewrite H. discriminate.
Qed.

Lemma createSQL_no_values_witness :
  MatchString numericPlaceHolderRegexp "SELECT * FROM t WHERE a = ?" = false
  /\ (createSQL "SELECT * FROM t WHERE a = ?" []
      = remove is_qmark "SELECT * FROM t WHERE a = ?"
      /\ (createSQL "SELECT * FROM t WHERE a = ?" [] = "SELECT * FROM t WHERE a = ?"
          <-> count is_qmark "SELECT * FROM t WHERE a = ?" = 0)).
Proof.
  split; [reflexivity|].
  apply (createSQL_no_values "SELECT * FROM t WHERE a = ?"). reflexivity.
Defined.

(** C3: with one value for two [?], the second [?] is not in the
    output. *)
Lemma createSQL_positional_short_drops :
  holes [("a = ", "1")] ++ join_qmark " AND b = " [""] = "a = ? AND b = ?"
  /\ createSQL (holes [("a = ", "1")] ++ join_qmark " AND b = " [""])
               (map snd [("a = ", "1")])
     <> filled [("a = ", "1")] ++ join_qmark " AND b = " [""].
Proof.
  split; [reflexivity|].
  assert (H : createSQL (holes [("a = ", "1")] ++ join_qmark " AND b = " [""])
                        (map snd [("a = ", "1")])
              = "a = 1 AND b = ")
    by (vm_compute; reflexivity).
  rewrite H. discriminate.
Qed.

Lemma createSQL_positional_short_witness :
  Forall no_qmark (map fst [("a = ", "1")])
  /\ Forall no_qmark [" AND b = "; ""]
  /\ MatchString numericPlaceHolderRegexp
       (holes [("a = ", "1")] ++ join_qmark " AND b = " [""]) = false
  /\ createSQL (holes [("a = ", "1")] ++ join_qmark " AND b = " [""])
               (map snd [("a = ", "1")])
     = filled [("a = ", "1")] ++ concat [" AND b = "; ""].
Proof.
  assert (H1 : Forall no_qmark (map fst [("a = ", "1")]))
    by (repeat constructor).
  assert (H2 : Forall no_qmark [" AND b = "; ""]) by (repeat constructor).
  assert (H3 : MatchString numericPlaceHolderRegexp
                 (holes [("a = ", "1")] ++ join_qmark " AND b = " [""]) = false)
    by reflexivity.
  split; [exact H1|]. split; [exact H2|]. split; [exact H3|].
  exact (createSQL_positional_short [("a = ", "1")] " AND b = " [""] H1 H2 H3).
Defined.

(** C4: the line of a loggable event does not begin with [[sql] : ];
    with a numeric template only the last placeholder is filled in; with
    more bound values than [?] one more value is appended to the
    statement; and with a bound value whose [Value()] call panics there
    is no line. *)
Lemma createLog_prefix_not_sql :
  (~ exists statement, createLog select_event = Ok ("[sql] : " ++ statement))
  /\ createLog numeric_event
     = Ok "[gorm] : SELECT * FROM t WHERE a = $1 AND b = 'x'"
  /\ createLog surplus_event = Ok "[gorm] : SELECT 1 FROM t2"
  /\ createLog nil_event = Panic NilReceiver.
Proof.
  split; [|split; [|split]]; try (vm_compute; reflexivity).
  assert (H : createLog select_event
              = Ok "[gorm] : SELECT * FROM category_master WHERE (id = 1)")
    by (vm_compute; reflexivity).
  rewrite H. intros [statement Hs]. discriminate Hs.
Qed.

Lemma createLog_line_witness :
  Forall no_qmark
    (map fst [("SELECT * FROM category_master WHERE (id = ", "1")])
  /\ no_qmark ")"
  /\ MatchString numericPlaceHolderRegexp
       (holes [("SELECT * FROM category_master WHERE (id = ", "1")] ++ ")")
     = false
  /\ Forall2 (fun v pair => format v = Ok (snd pair)) [Int 1]
       [("SELECT * FROM category_master WHERE (id = ", "1")]
  /\ createLog
       (Str "sql" :: Str "category.go:28" :: Other 0
        :: Str (holes [("SELECT * FROM category_master WHERE (id = ", "1")]
                ++ ")")
        :: Slice [Int 1] :: [Int 1])
     = Ok ("[gorm] : "
           ++ filled [("SELECT * FROM category_master WHERE (id = ", "1")]
           ++ ")")
  /\ Println {| zap := [] |}
       (Str "sql" :: Str "category.go:28" :: Other 0
        :: Str (holes [("SELECT * FROM category_master WHERE (id = ", "1")]
                ++ ")")
        :: Slice [Int 1] :: [Int 1])
     = Ok {| zap := (zap {| zap := [] |}
                     ++ [(DebugLevel,
                          ("[gorm] : "
                           ++ filled [("SELECT * FROM category_master WHERE (id = ",
                                       "1")]
                           ++ ")")%string)])%list |}.
Proof.
  assert (H1 : Forall no_qmark
                 (map fst [("SELECT * FROM category_master WHERE (id = ", "1")]))
    by (repeat constructor).
  assert (H2 : no_qmark ")") by reflexivity.
  assert (H3 : MatchString numericPlaceHolderRegexp
                 (holes [("SELECT * FROM category_master WHERE (id = ", "1")]
                  ++ ")") = false)
    by reflexivity.
  assert (H4 : Forall2 (fun v pair => format v = Ok (snd pair)) [Int 1]
                 [("SELECT * FROM category_master WHERE (id = ", "1")])
    by (repeat constructor).
  split; [exact H1|]. split; [exact H2|]. split; [exact H3|]. split; [exact H4|].
  exact (createLog_line {| zap := [] |} (Str "category.go:28") (Other 0)
           [("SELECT * FROM category_master WHERE (id = ", "1")] ")"
           [Int 1] [Int 1] H1 H2 H3 H4).
Defined.

Lemma build_drops_encoder_error_witness :
  String.eqb (Encoding (ZapConfig_ xml_config)) "console" = false
  /\ String.eqb (Encoding (ZapConfig_ xml_config)) "json" = false
  /\ (snd (newEncoder (ZapConfig_ xml_config)) = Some "Failed to set encoder"
      /\ snd (build xml_config) = None
      /\ core_enc (fst (build xml_config)) = None).
Proof.
  split; [reflexivity|]. split; [reflexivity|].
  apply (build_drops_encoder_error xml_config); reflexivity.
Defined.

(** C6: a tagged list of four elements whose last is not a string does
    not fail on an index out of range. *)
Lemma createLog_short_not_index :
  ~ exists i n,
      createLog [Str "sql"; Int 1; Int 2; Int 3] = Panic (IndexOutOfRange i n).
Proof.
  assert (H : createLog [Str "sql"; Int 1; Int 2; Int 3]
              = Panic (InterfaceConversion (Int 3) "string"))
    by reflexivity.
  rewrite H. intros (i & n & Hp). discriminate Hp.
Qed.

Lemma createLog_sql_shape_witness :
  1 < List.length select_event
  /\ nth_error select_event 0 = Some (Str "sql")
  /\ ((forall line,
          createLog select_event = Ok line ->
          5 <= List.length select_event
          /\ (exists sql, nth_error select_event 3 = Some (Str sql))
          /\ (exists bound, nth_error select_event 4 = Some (Slice bound)))
      /\ (List.length select_event <= 3 ->
          createLog select_event
          = Panic (IndexOutOfRange 3 (List.length select_event)))
      /\ (List.length select_event = 4 ->
          exists v3,
            nth_error select_event 3 = Some v3
            /\ createLog select_event
               = match v3 with
                 | Str _ => Panic (IndexOutOfRange 4 4)
                 | _ => Panic (InterfaceConversion v3 "string")
                 end)).
Proof.
  assert (H1 : 1 < List.length select_event) by (cbn; lia).
  assert (H2 : nth_error select_event 0 = Some (Str "sql")) by reflexivity.
  split; [exact H1|]. split; [exact H2|].
  exact (createLog_sql_shape select_event H1 H2).
Defined.


(** C8: the first instant of year 10000 is not the zero time, and is
    not formatted in 19 characters. *)
Lemma format_time_five_digit_year :
  Time.IsZero year_10000 = false
  /\ Time.civil year_10000
  /\ ~ exists body,
         format (TimeVal year_10000) = Ok ("'" ++ body ++ "'")
         /\ length body = 19.
Proof.
  split; [reflexivity|]. split; [unfold Time.civil; cbn; lia|].
  assert (H : format (TimeVal year_10000) = Ok "'10000-01-01 00:00:00'")
    by (vm_compute; reflexivity).
  rewrite H. intros (body & Hb & Hl).
  inversion Hb as [Hb']. apply (f_equal length) in Hb'. rename Hb' into Hb'0.
  clear Hb. rename Hb'0 into Hb.
  cbn [append length] in Hb. rewrite BytesFacts.length_append in Hb.
  cbn [length] in Hb. lia.
Qed.

Lemma format_time_witness :
  Time.IsZero zero_time = true
  /\ format (TimeVal zero_time) = Ok "'0000-00-00 00:00:00'"
  /\ Time.IsZero march_2021 = false
  /\ Time.civil march_2021
  /\ (0 <= Time.Year march_2021 <= 9999)%Z
  /\ exists body,
       format (TimeVal march_2021) = Ok ("'" ++ body ++ "'")
       /\ length body = 19 /\ datetime_form body = true.
Proof.
  assert (H0 : Time.IsZero zero_time = true) by reflexivity.
  assert (H1 : Time.IsZero march_2021 = false) by reflexivity.
  assert (H2 : Time.civil march_2021) by (unfold Time.civil; cbn; lia).
  assert (H3 : (0 <= Time.Year march_2021 <= 9999)%Z) by (cbn; lia).
  split; [exact H0|].
  split; [exact (proj1 (format_time zero_time) H0)|].
  split; [exact H1|]. split; [exact H2|]. split; [exact H3|].
  exact (proj2 (format_time march_2021) H1 H2 H3).
Defined.

Lemma createSQL_numeric_exclusive_witness :
  has_numeric_placeholder "SELECT * FROM t WHERE a = $1 AND b ? c"
  /\ (createSQL "SELECT * FROM t WHERE a = $1 AND b ? c" ["1"]
      = match rev ["1"] with
        | [] => EmptyString
        | value :: _ =>
          ReplaceAllString (placeholder (List.length ["1"]))
            "SELECT * FROM t WHERE a = $1 AND b ? c" (value ++ "$1")
        end
      /\ (forall value before,
            rev ["1"] = value :: before ->
            count is_dollar value = 0 ->
            count is_qmark (createSQL "SELECT * FROM t WHERE a = $1 AND b ? c" ["1"])
            = count is_qmark "SELECT * FROM t WHERE a = $1 AND b ? c"
              + hits (placeholder (List.length ["1"]))
                  "SELECT * FROM t WHERE a = $1 AND b ? c"
                * count is_qmark value)).
Proof.
  assert (H : has_numeric_placeholder "SELECT * FROM t WHERE a = $1 AND b ? c").
  { exists "SELECT * FROM t WHERE a = ", "1"%char, " AND b ? c".
    split; reflexivity. }
  split; [exact H|].
  exact (createSQL_numeric_exclusive
           "SELECT * FROM t WHERE a = $1 AND b ? c" ["1"] H).
Defined.



(** The statements of the specification that the code meets as they
    stand, and the panics of [createLog] on short tagged lists. *)
Example createSQL_positional_round_trip :
  createSQL "SELECT * FROM t WHERE a = ? AND b = ?" ["1"; "'x'"]
  = "SELECT * FROM t WHERE a = 1 AND b = 'x'".
Proof. vm_compute. reflexivity. Qed.

Example createSQL_numeric_single :
  createSQL "SELECT * FROM t WHERE a = $1 AND b ? c" ["1"]
  = "SELECT * FROM t WHERE a = 1 AND b ? c".
Proof. vm_compute. reflexivity. Qed.

Example createSQL_numeric_no_values :
  createSQL "SELECT * FROM t WHERE a = $1" [] = "".
Proof. vm_compute. reflexivity. Qed.

Example createLog_select_event :
  createLog select_event
  = Ok "[gorm] : SELECT * FROM category_master WHERE (id = 1)".
Proof. vm_compute. reflexivity. Qed.

Example createLog_two_elements :
  createLog [Str "sql"; Str "category.go:28"] = Panic (IndexOutOfRange 3 2).
Proof. reflexivity. Qed.

Example createLog_three_elements :
  createLog [Str "sql"; Str "category.go:28"; Other 0]
  = Panic (IndexOutOfRange 3 3).
Proof. reflexivity. Qed.

Example createLog_four_elements :
  createLog [Str "sql"; Str "category.go:28"; Other 0; Str "SELECT 1"]
  = Panic (IndexOutOfRange 4 4).
Proof. reflexivity. Qed.

Example createLog_not_tagged :
  createLog [Str "log"; Str "category.go:28"] = Ok "".
Proof. reflexivity. Qed.

Example format_scalars :
  map format [Int 1; Bool true; Str "x"; Nil; Pointer None None;
              Pointer (Some (Int 7)) None; Valuer (Returns Nil false);
              Valuer (Returns (Str "v") false);
              Valuer (Returns (Str "v") true)]
  = map Ok ["1"; "true"; "'x'"; "NULL"; "NULL"; "7"; "NULL"; "'v'"; "NULL"].
Proof. reflexivity. Qed.

(** A pointer to a nil pointer whose type has [Value()] with a value
    receiver: the call panics, and with it the whole trace event. *)
Example format_nil_receiver :
  format nil_inside = Panic NilReceiver
  /\ format (Pointer None (Some (ByValue, Returns (Str "v") false))) = Ok "NULL"
  /\ format (Valuer Panics) = Panic RaisedInValue
  /\ Println {| zap := [] |} nil_event = Panic NilReceiver.
Proof. repeat split; reflexivity. Qed.

End Examples.

(** * Further properties of the package *)

Module CoverFacts.
Import Bytes Utf8 Regexp SQL Dyn Logger Pipeline Spec Cover.
Import BytesFacts Utf8Facts RegexpFacts SQLFacts LoggerFacts.

Lemma is_sql_true (v : value) : is_sql v = true <-> v = Str "sql".
Proof.
  destruct v; cbn [is_sql]; try (split; [discriminate|intros H; discriminate H]).
  rewrite String.eqb_eq. split; [now intros ->|now inversion 1].
Qed.

Section Trace.
Context {tables : UnicodeTables} {fmt : Formatter}.

Lemma createLog_untagged (values : list value) :
  ~ tagged values -> createLog values = Ok "".
Proof.
  intros Hn. unfold createLog.
  destruct (Nat.ltb_spec 1 (List.length values)) as [Hl|Hl]; [|reflexivity].
  unfold index. destruct (nth_error values 0) as [level|] eqn:H0; cbn [bind].
  - destruct (is_sql level) eqn:Hs; [|reflexivity].
    apply is_sql_true in Hs. subst level. exfalso. apply Hn. now split.
  - apply nth_error_None in H0. lia.
Qed.

Lemma createLog_tagged (values : list value) :
  tagged values ->
  createLog values
  = (v3 <- index values 3 ;;
     sql <- assert_string v3 ;;
     formatted <- getFormattedValues values ;;
     Ok ("[gorm] : " ++ createSQL sql formatted)).
Proof.
  intros [Hl H0]. unfold createLog.
  destruct (Nat.ltb_spec 1 (List.length values)); [|lia].
  unfold index at 1. rewrite H0. reflexivity.
Qed.

(** X1: a list that is not tagged (at most one element, or a first
    element other than the string ["sql"]) gives the empty line without
    panicking, whatever else it holds, and [Println] leaves the logger as
    it is. *)
Theorem Println_untagged (l : Logger) (values : list value) :
  ~ tagged values ->
  createLog values = Ok "" /\ Println l values = Ok l.
Proof.
  intros Hn. pose proof (createLog_untagged values Hn) as H.
  split; [exact H|]. unfold Println. rewrite H. reflexivity.
Qed.

Lemma createLog_tagged_line (values : list value) (line : string) :
  tagged values -> createLog values = Ok line ->
  exists statement, line = "[gorm] : " ++ statement.
Proof.
  intros Ht. rewrite (createLog_tagged values Ht).
  destruct (index values 3) as [v3|]; cbn [bind]; [|discriminate].
  destruct (assert_string v3) as [sql|]; cbn [bind]; [|discriminate].
  destruct (getFormattedValues values) as [formatted|]; cbn [bind]; [|discriminate].
  intros H. inversion H. eexists. reflexivity.
Qed.

(** X2: when [Println] returns, the logger holds what it held before,
    followed by at most one entry; there is a new entry exactly for a
    tagged list, and it is at debug level and begins with [[gorm] : ]. *)
Theorem Println_appends (l l' : Logger) (values : list value) :
  Println l values = Ok l' ->
  exists added,
    zap l' = (zap l ++ added)%list
    /\ List.length added <= 1
    /\ (added <> [] <-> tagged values)
    /\ (forall lvl msg, In (lvl, msg) added ->
        lvl = DebugLevel /\ exists statement, msg = "[gorm] : " ++ statement).
Proof.
  unfold Println.
  destruct (createLog values) as [line|] eqn:Hc; cbn [bind]; [|discriminate].
  assert (Hcases : tagged values \/ ~ tagged values).
  { unfold tagged.
    destruct (Nat.ltb_spec 1 (List.length values)); [|right; lia].
    destruct (nth_error values 0) as [v|]; [|right; intros [_ H']; discriminate H'].
    destruct (is_sql v) eqn:Hs.
    - apply is_sql_true in Hs. subst. now left.
    - right. intros [_ H']. inversion H'. subst. discriminate Hs. }
  destruct Hcases as [Ht|Hn].
  - destruct (createLog_tagged_line values line Ht Hc) as [statement ->].
    cbn [String.eqb append Ascii.eqb Bool.eqb negb]. intros H. inversion H.
    exists [(DebugLevel, "[gorm] : " ++ statement)]. cbn [Debugf zap].
    split; [reflexivity|]. split; [cbn; lia|]. split.
    + split; [intros _; exact Ht|discriminate].
    + intros lvl msg [Hin|[]]. inversion Hin. split; [reflexivity|].
      now exists statement.
  - rewrite (createLog_untagged values Hn) in Hc. inversion Hc. subst line.
    cbn. intros H. inversion H. exists []. rewrite app_nil_r.
    split; [reflexivity|]. split; [cbn; lia|]. split.
    + split; [intros H'; now elim H'|intros Ht; now elim Hn].
    + intros lvl msg [].
Qed.

Lemma texts_formatted (bound : list value) (texts : list string) :
  Forall2 (fun v text => format v = Ok text) bound texts ->
  Forall (fun v => forall p, ~ Value_panics v p) bound.
Proof.
  induction 1 as [|v text]; constructor; [|assumption].
  apply format_returns. now exists text.
Qed.

Lemma texts_at (bound : list value) (texts : list string) :
  Forall2 (fun v text => format v = Ok text) bound texts ->
  forall i v, nth_error bound i = Some v ->
  exists text, nth_error texts i = Some text /\ format v = Ok text.
Proof.
  induction 1 as [|w text bound texts Hw _ IH]; intros [|i] v Hv;
    cbn [nth_error] in Hv; try discriminate Hv.
  - inversion Hv. subst. exists text. now split.
  - exact (IH i v Hv).
Qed.

(** X3: [getFormattedValues] returns exactly when the element at index 4
    is a [[]interface{}] none of whose values has a [Value()] whose call
    panics; on a list of at most four elements it panics on the index, on
    another fifth element on the type assertion. *)
Theorem getFormattedValues_total_iff (values : list value) :
  ((exists formatted, getFormattedValues values = Ok formatted)
   <-> exists bound,
         nth_error values 4 = Some (Slice bound)
         /\ Forall (fun v => forall p, ~ Value_panics v p) bound)
  /\ (List.length values <= 4 ->
      getFormattedValues values = Panic (IndexOutOfRange 4 (List.length values)))
  /\ (forall v4, nth_error values 4 = Some v4 ->
      (forall bound, v4 <> Slice bound) ->
      getFormattedValues values = Panic (InterfaceConversion v4 "[]interface {}")).
Proof.
  split; [|split].
  - split.
    + intros [formatted H].
      destruct (nth_error values 4) as [v4|] eqn:H4.
      * destruct v4 as [| | | | | | | | |bound|];
          try (unfold getFormattedValues, index in H; rewrite H4 in H;
               discriminate H).
        exists bound. split; [reflexivity|].
        apply (getFormattedValues_returns values bound formatted H4) in H.
        exact (texts_formatted bound formatted H).
      * unfold getFormattedValues, index in H. rewrite H4 in H. discriminate H.
    + intros (bound & H4 & Hb). destruct (texts_exist bound Hb) as [texts Hf].
      exists texts. now apply (getFormattedValues_returns values bound texts H4).
  - intros Hl. unfold getFormattedValues, index.
    assert (H4 : nth_error values 4 = None) by (apply nth_error_None; lia).
    now rewrite H4.
  - intros v4 H4 Hn. unfold getFormattedValues, index. rewrite H4. cbn [bind].
    destruct v4; try reflexivity. now elim (Hn l).
Qed.

(** X4: the formatted values come in the order of the bound values:
    [getFormattedValues] returns a list exactly when that list holds, for
    each bound value in turn, the text it is formatted as; so the text at
    each index is the format of the bound value at that index. *)
Theorem getFormattedValues_order (values bound : list value)
    (formatted : list string) :
  nth_error values 4 = Some (Slice bound) ->
  (getFormattedValues values = Ok formatted
   <-> Forall2 (fun v text => format v = Ok text) bound formatted)
  /\ (getFormattedValues values = Ok formatted ->
      forall i v, nth_error bound i = Some v ->
      exists text, nth_error formatted i = Some text /\ format v = Ok text).
Proof.
  intros H4.
  pose proof (getFormattedValues_returns values bound formatted H4) as Hr.
  split; [exact Hr|].
  intros H. apply Hr in H. exact (texts_at bound formatted H).
Qed.

(** X5: whatever the value, when it is formatted its text is [NULL], the
    plain [%v] text of a numeric or boolean scalar, or a text between
    single quotes; and formatting panics only when the value, once
    dereferenced, has a method [Value()] whose call panics. *)
Theorem format_shape (v : value) :
  (forall text, format v = Ok text ->
     text = "NULL"
     \/ (exists scalar, is_scalar scalar = true /\ text = Sprint_v scalar)
     \/ (exists body, text = "'" ++ body ++ "'"))
  /\ (forall p, format v = Panic p -> Value_panics v p).
Proof.
  unfold format, Value_panics. destruct (Indirect v) as [w|]; [|split].
  - assert (Hcall : forall call : result (value * bool),
               (forall text,
                   (returned <- call ;;
                    let (value, err) := returned in
                    if negb err && negb (is_nil value)
                    then Ok (Fmt.quoted (Sprint_v value)) else Ok "NULL")
                   = Ok text ->
                   text = "NULL"
                   \/ (exists scalar,
                         is_scalar scalar = true /\ text = Sprint_v scalar)
                   \/ (exists body, text = "'" ++ body ++ "'"))
               /\ (forall p,
                     (returned <- call ;;
                      let (value, err) := returned in
                      if negb err && negb (is_nil value)
                      then Ok (Fmt.quoted (Sprint_v value)) else Ok "NULL")
                     = Panic p ->
                     call = Panic p)).
    { intros [[r err]|q]; cbn [bind]; split.
      - destruct (negb err && negb (is_nil r)); intros text H; inversion H.
        + right. right. eexists. reflexivity.
        + now left.
      - destruct (negb err && negb (is_nil r)); intros p H; discriminate H.
      - intros text H. discriminate H.
      - intros p H. inversion H. reflexivity. }
    assert (Hany : forall w0 : value,
               match Value w0 with
               | Some call =>
                 (forall text,
                   (returned <- call ;;
                    let (value, err) := returned in
                    if negb err && negb (is_nil value)
                    then Ok (Fmt.quoted (Sprint_v value)) else Ok "NULL")
                   = Ok text ->
                   text = "NULL"
                   \/ (exists scalar,
                         is_scalar scalar = true /\ text = Sprint_v scalar)
                   \/ (exists body, text = "'" ++ body ++ "'"))
                 /\ (forall p,
                     (returned <- call ;;
                      let (value, err) := returned in
                      if negb err && negb (is_nil value)
                      then Ok (Fmt.quoted (Sprint_v value)) else Ok "NULL")
                     = Panic p ->
                     exists w1, Some w0 = Some w1 /\ Value w1 = Some (Panic p))
               | None => True
               end).
    { intros w0. destruct (Value w0) as [call|] eqn:Hv; [|exact I].
      destruct (Hcall call) as [Hok Hp]. split; [exact Hok|].
      intros p H. exists w0. split; [reflexivity|].
      rewrite Hv. f_equal. exact (Hp p H). }
    destruct w as [|elem valuer|t|b|o|z|bits|b|s|l|id]; cbv beta iota.
    all: try (match goal with
              | |- context [Value ?w0] =>
                specialize (Hany w0); destruct (Value w0) as [call|];
                [ exact Hany
                | split;
                  [ intros text H; inversion H;
                    first [ right; left; eexists; split; [|reflexivity]; reflexivity
                          | right; right; eexists; reflexivity ]
                  | intros p H; discriminate H ] ]
              end).
    + split.
      * destruct (Time.IsZero t); intros text H; inversion H;
          right; right; eexists; reflexivity.
      * destruct (Time.IsZero t); intros p H; discriminate H.
    + split.
      * destruct (isPrintable b); intros text H; inversion H;
          right; right; [eexists; reflexivity|exists "<binary>"; reflexivity].
      * destruct (isPrintable b); intros p H; discriminate H.
  - intros text H. inversion H. now left.
  - intros p H. discriminate H.
Qed.

(** X7: a nil pointer is [NULL]; a pointer to a value that is neither
    nil nor a pointer is formatted as that value; a pointer to a pointer
    is followed one level only, the inner pointer (of a type without a
    [Value()] method) being printed by [%v] between quotes. *)
Theorem format_pointer (v : value) (elem : option value)
    (valuer : option (receiver * outcome)) :
  format (Pointer None valuer) = Ok "NULL"
  /\ (is_nil v = false -> is_pointer v = false ->
      format (Pointer (Some v) valuer) = format v)
  /\ format (Pointer (Some (Pointer elem None)) valuer)
     = Ok ("'" ++ Sprint_v (Pointer elem None) ++ "'").
Proof.
  split; [reflexivity|]. split; [|reflexivity].
  intros Hn Hp. destruct v; try discriminate; reflexivity.
Qed.

(** X19: a value with a [Value()] method is [NULL] exactly when the
    method returns an error or a nil value; otherwise the returned value
    is printed by [%v] between quotes; and when the method panics, so
    does the formatting. *)
Theorem format_valuer_null (v : value) (err : bool) :
  (format (Valuer (Returns v err)) = Ok "NULL" <-> err = true \/ v = Nil)
  /\ (err = false -> v <> Nil ->
      format (Valuer (Returns v err)) = Ok ("'" ++ Sprint_v v ++ "'"))
  /\ format (Valuer Panics) = Panic RaisedInValue.
Proof.
  unfold format. cbn [Indirect Value run_outcome bind].
  split; [|split; [|reflexivity]].
  - destruct err; cbn [negb andb].
    + split; [now left|reflexivity].
    + destruct v; cbn [is_nil negb];
        try (split; [intros H; discriminate H|intros [H|H]; discriminate H]).
      split; [now right|reflexivity].
  - intros -> Hv. destruct v; try reflexivity. now elim Hv.
Qed.

Lemma runes_ascii (s : string) :
  all is_ascii s = true ->
  Utf8.runes s = map byte (list_ascii_of_string s).
Proof.
  unfold Utf8.runes.
  induction s as [|c s IH]; [reflexivity|].
  cbn [all]. intros H. apply andb_prop in H. destruct H as [Hc Hs].
  cbn [runes_from]. rewrite decode_ascii by (now apply Z.ltb_lt).
  cbn [Nat.pred list_ascii_of_string map]. now rewrite IH.
Qed.

Lemma all_printable_ascii (s : string) :
  all is_ascii s = true ->
  all_printable (map byte (list_ascii_of_string s)) = all printable_ascii s.
Proof.
  induction s as [|c s IH]; [reflexivity|].
  cbn [all]. intros H. apply andb_prop in H. destruct H as [Hc Hs].
  cbn [list_ascii_of_string map all_printable].
  unfold Unicode.IsPrint at 1. unfold is_ascii in Hc. rewrite Hc.
  fold (printable_ascii c).
  destruct (printable_ascii c); cbn [negb andb]; [now apply IH|reflexivity].
Qed.

(** X6: on a string of ASCII bytes [isPrintable] holds exactly when
    every byte lies between 0x20 and 0x7E, whatever the Unicode tables; so
    a byte slice with a tab, a newline or a DEL is logged as
    ['<binary>']. *)
Theorem isPrintable_ascii (s : string) :
  all is_ascii s = true ->
  isPrintable s = all printable_ascii s
  /\ format (ByteSlice s)
     = Ok (if all printable_ascii s then "'" ++ s ++ "'" else "'<binary>'").
Proof.
  intros H.
  assert (Hp : isPrintable s = all printable_ascii s).
  { unfold isPrintable. rewrite runes_ascii by exact H.
    now apply all_printable_ascii. }
  split; [exact Hp|].
  unfold format. cbn [Indirect]. rewrite Hp.
  now destruct (all printable_ascii s).
Qed.

End Trace.

Section CreateSQL.
Context {tables : UnicodeTables}.

Lemma interleave_holes (pairs : list (string * string)) (rest : string)
    (extra : list string) :
  Forall no_qmark (map fst pairs) ->
  (let (seg0, segs) := split_qmark (holes pairs ++ rest) in
   interleave (seg0 :: segs) (map snd pairs ++ extra))
  = filled pairs
    ++ (let (seg0, segs) := split_qmark rest in interleave (seg0 :: segs) extra).
Proof.
  induction pairs as [|[seg v] pairs IH]; intros Hq.
  - reflexivity.
  - cbn [map fst] in Hq. inversion Hq as [|? ? Hseg Hrest]; subst.
    cbn [holes filled map snd app].
    rewrite append_assoc. cbn [append].
    rewrite split_qmark_hole by exact Hseg.
    specialize (IH Hrest).
    destruct (split_qmark (holes pairs ++ rest)) as [seg0 segs].
    change (interleave (seg :: seg0 :: segs) (v :: (map snd pairs ++ extra)%list))
      with (seg ++ v ++ interleave (seg0 :: segs) (map snd pairs ++ extra)).
    rewrite IH. now rewrite !append_assoc.
Qed.

(** X8: with more values than [?], the values take the place of the
    [?]s, the next value is appended after the last segment, and the
    values after it are ignored. *)
Theorem createSQL_surplus_values (pairs : list (string * string)) (seg : string)
    (v : string) (more : list string) :
  Forall no_qmark (map fst pairs) ->
  no_qmark seg ->
  MatchString numericPlaceHolderRegexp (holes pairs ++ seg) = false ->
  createSQL (holes pairs ++ seg) (map snd pairs ++ v :: more)
  = filled pairs ++ seg ++ v.
Proof.
  intros Hp Hs Hm.
  rewrite createSQL_positional by exact Hm.
  rewrite interleave_holes by exact Hp.
  rewrite split_qmark_none by exact Hs.
  cbn [interleave]. now rewrite append_nil_r.
Qed.

Lemma split_qmark_segments (s : string) :
  Forall no_qmark (fst (split_qmark s) :: snd (split_qmark s))
  /\ List.length (snd (split_qmark s)) = count is_qmark s.
Proof.
  induction s as [|c s [IHf IHl]]; cbn [split_qmark count].
  - split; [repeat constructor|reflexivity].
  - destruct (split_qmark s) as [h t]. cbn [fst snd] in *.
    destruct (is_qmark c) eqn:Hc; cbn [fst snd List.length].
    + split; [constructor; [reflexivity|exact IHf]|now rewrite IHl].
    + split; [|exact IHl].
      inversion IHf as [|? ? Hh Ht]; subst.
      constructor; [|exact Ht].
      unfold no_qmark in *. cbn [count]. now rewrite Hc.
Qed.

Lemma count_interleave (segs values : list string) :
  Forall no_qmark segs ->
  count is_qmark (interleave segs values)
  = count is_qmark (concat (firstn (List.length segs) values)).
Proof.
  revert values. induction segs as [|seg segs IH]; intros values Hq.
  - reflexivity.
  - inversion Hq as [|? ? Hseg Hrest]; subst. unfold no_qmark in Hseg.
    destruct values as [|v values].
    + cbn [interleave firstn concat List.length].
      rewrite count_append, Hseg. rewrite <- interleave_nil.
      rewrite (IH [] Hrest). now rewrite firstn_nil.
    + cbn [interleave firstn concat List.length].
      rewrite !count_append, Hseg, (IH values Hrest). reflexivity.
Qed.

(** X18: in the positional dialect no [?] of the template reaches the
    result: the result holds as many [?] as the values that were used,
    which are the first [n + 1] for a template with [n] [?]s. *)
Theorem createSQL_positional_no_template_qmark (sql : string) (values : list string) :
  MatchString numericPlaceHolderRegexp sql = false ->
  count is_qmark (createSQL sql values)
  = count is_qmark (concat (firstn (S (count is_qmark sql)) values)).
Proof.
  intros Hm. rewrite createSQL_positional by exact Hm.
  destruct (split_qmark_segments sql) as [Hf Hl].
  destruct (split_qmark sql) as [seg0 segs]. cbn [fst snd] in *.
  rewrite count_interleave by exact Hf. cbn [List.length]. now rewrite Hl.
Qed.

(** X21: a template without a [$] followed by a digit is cut at its
    [?]s and rebuilt with the values between the segments, in order, for
    any number of values. *)
Theorem createSQL_positional_dialect (sql : string) (values : list string) :
  ~ has_numeric_placeholder sql ->
  createSQL sql values
  = interleave (fst (split_qmark sql) :: snd (split_qmark sql)) values.
Proof.
  intros Hn.
  assert (Hm : MatchString numericPlaceHolderRegexp sql = false).
  { destruct (MatchString numericPlaceHolderRegexp sql) eqn:Hm; [|reflexivity].
    elim Hn. now apply MatchString_numeric. }
  rewrite createSQL_positional by exact Hm.
  now destruct (split_qmark sql).
Qed.

(** X10: in the numeric dialect the result depends on the values only
    through their number and the last of them. *)
Theorem createSQL_numeric_last_value (sql : string) (before before' : list string)
    (value : string) :
  has_numeric_placeholder sql ->
  List.length before = List.length before' ->
  createSQL sql (before ++ [value]) = createSQL sql (before' ++ [value]).
Proof.
  intros H Hl. apply MatchString_numeric in H.
  unfold createSQL. rewrite H, !numeric_fold.
  rewrite !rev_app_distr, !length_app, Hl. reflexivity.
Qed.

End CreateSQL.

Lemma append_inv_head (a x y : string) : a ++ x = a ++ y -> x = y.
Proof. induction a as [|c a IH]; cbn [append]; [auto|]. intros H. inversion H. auto. Qed.

Lemma is_digit_not_dollar (c : ascii) : is_digit c = true -> is_dollar c = false.
Proof.
  unfold is_dollar. intros H.
  destruct (Ascii.eqb_spec c "$") as [->|]; [discriminate H|reflexivity].
Qed.

Lemma digits_no_dollar (ds : string) : all is_digit ds = true -> count is_dollar ds = 0.
Proof.
  induction ds as [|c ds IH]; cbn [all count]; [reflexivity|].
  intros H. apply andb_prop in H. destruct H as [Hc Hds].
  rewrite (is_digit_not_dollar c Hc). now apply IH.
Qed.

Lemma Sprint_d_first (n : nat) :
  exists d ds, Fmt.Sprint_d (Z.of_nat n) = String d ds /\ is_digit d = true.
Proof.
  pose proof (Sprint_d_digits n) as Hd.
  destruct (Fmt.Sprint_d (Z.of_nat n)) as [|d ds] eqn:Hs.
  - exfalso. revert Hs. unfold Fmt.Sprint_d, NilZero.string_of_int.
    destruct (Z.of_nat n) as [|p|p] eqn:Hn; cbn [Z.to_int]; [discriminate| |lia].
    unfold NilZero.string_of_uint. destruct (Pos.to_uint p); discriminate.
  - cbn [all] in Hd. apply andb_prop in Hd. destruct Hd as [Hd _].
    now exists d, ds.
Qed.

Lemma placeholder_in_template (n : nat) (pre rest : string) :
  has_numeric_placeholder (pre ++ String "$" (Fmt.Sprint_d (Z.of_nat n) ++ rest)).
Proof.
  destruct (Sprint_d_first n) as (d & ds & -> & Hd).
  exists pre, d, (ds ++ rest). split; [reflexivity|exact Hd].
Qed.

Lemma notdigit_rune (c : ascii) (p : string) (r : Z) (size : nat) :
  Utf8.DecodeRuneInString (String c p) = (r, size) ->
  is_digit c = false -> class_mem CNotDigit r = true.
Proof.
  intros Hd Hc. cbn [class_mem].
  destruct (Z.ltb_spec (byte c) 0x80) as [Hlt|Hge].
  - rewrite decode_ascii in Hd by exact Hlt. inversion Hd. subst.
    unfold is_digit in Hc. now rewrite Hc.
  - pose proof (decode_high c p Hge) as Hh. rewrite Hd in Hh. cbn [fst] in Hh.
    destruct (Z.leb_spec r 0x39); [lia|]. now rewrite andb_false_r.
Qed.

Section Matching.
Context {A : Type}.

Lemma run_literal_app (ds : string) (r : regex) (rest : string) (g : option string)
    (K : string -> option string -> option A) :
  all is_digit ds = true ->
  run (literal ds r) (ds ++ rest) g K = run r rest g K.
Proof.
  induction ds as [|d ds IH]; cbn [all literal append]; [reflexivity|].
  intros H. apply andb_prop in H. destruct H as [Hd Hds].
  cbn [run]. rewrite one_ascii by now apply is_digit_ascii.
  rewrite Ascii.eqb_refl. now apply IH.
Qed.

End Matching.

Lemma match_at_placeholder_other (n : nat) (c : ascii) (s : string) :
  is_dollar c = false -> match_at (placeholder n) (String c s) = None.
Proof.
  intros Hc. unfold match_at, placeholder. cbn [run].
  rewrite one_ascii by apply dollar_ascii.
  unfold is_dollar in Hc. now rewrite Hc.
Qed.

Lemma match_at_placeholder_found (n : nat) (post : string) :
  starts_with_digit post = false ->
  match_at (placeholder n) (String "$" (Fmt.Sprint_d (Z.of_nat n) ++ post)) <> None.
Proof.
  intros Hp. unfold match_at, placeholder. cbn [run].
  rewrite one_ascii by apply dollar_ascii. rewrite Ascii.eqb_refl.
  rewrite run_literal_app by apply Sprint_d_digits.
  cbn [run]. destruct post as [|c p]; [cbn [one]; discriminate|].
  unfold one. destruct (Utf8.DecodeRuneInString (String c p)) as [r size] eqn:Hd.
  rewrite (notdigit_rune c p r size Hd Hp). discriminate.
Qed.

Lemma match_at_placeholder_digit (n : nat) (d : ascii) (post : string) :
  is_digit d = true ->
  match_at (placeholder n)
    (String "$" (Fmt.Sprint_d (Z.of_nat n) ++ String d post)) = None.
Proof.
  intros Hd. unfold match_at, placeholder. cbn [run].
  rewrite one_ascii by apply dollar_ascii. rewrite Ascii.eqb_refl.
  rewrite run_literal_app by apply Sprint_d_digits.
  cbn [run]. unfold one.
  rewrite decode_ascii by now apply is_digit_ascii.
  cbn [class_mem]. unfold is_digit in Hd. now rewrite Hd.
Qed.

Lemma scan_skip (re : regex) (a s : string) :
  scan re (length a) (a ++ s) = scan re 0 s.
Proof. induction a as [|c a IH]; cbn [length append scan]; [reflexivity|exact IH]. Qed.

Section Replacing.
Context {tables : UnicodeTables}.

Lemma replace_lits (n : nat) (pre s repl : string) :
  count is_dollar pre = 0 ->
  replace (scan (placeholder n) 0 (pre ++ s)) repl
  = pre ++ replace (scan (placeholder n) 0 s) repl.
Proof.
  induction pre as [|c pre IH]; cbn [count append]; [reflexivity|].
  destruct (is_dollar c) eqn:Hc; [discriminate|]. intros H.
  cbn [scan]. rewrite match_at_placeholder_other by exact Hc.
  cbn [replace]. now rewrite IH.
Qed.

Lemma replace_plain (n : nat) (s repl : string) :
  count is_dollar s = 0 -> replace (scan (placeholder n) 0 s) repl = s.
Proof.
  intros H. rewrite <- (append_nil_r s) at 1.
  rewrite replace_lits by exact H. cbn. apply append_nil_r.
Qed.

Lemma createSQL_numeric_replace (sql : string) (before : list string) (value : string) :
  has_numeric_placeholder sql ->
  createSQL sql (before ++ [value])
  = replace (scan (placeholder (S (List.length before))) 0 sql) (value ++ "$1").
Proof.
  intros H. apply MatchString_numeric in H.
  unfold createSQL. rewrite H, numeric_fold.
  rewrite rev_app_distr, length_app. cbn [rev app List.length].
  now rewrite Nat.add_1_r.
Qed.

(** X11: in the numeric dialect the placeholder whose number is the
    number of values is replaced by the last value, and the character
    after it is kept, when nothing else in the template or the value
    holds a [$]. *)
Theorem createSQL_numeric_placeholder (pre post value : string)
    (before : list string) :
  count is_dollar pre = 0 ->
  count is_dollar post = 0 ->
  count is_dollar value = 0 ->
  starts_with_digit post = false ->
  createSQL
    (pre ++ String "$" (Fmt.Sprint_d (Z.of_nat (S (List.length before))) ++ post))
    (before ++ [value])
  = pre ++ value ++ post.
Proof.
  intros Hpre Hpost Hv Hd.
  set (n := S (List.length before)).
  rewrite createSQL_numeric_replace by apply placeholder_in_template.
  fold n. rewrite replace_lits by exact Hpre. f_equal.
  cbn [scan].
  destruct (match_at (placeholder n) (String "$" (Fmt.Sprint_d (Z.of_nat n) ++ post)))
    as [[len g]|] eqn:Hm;
    [|now elim (match_at_placeholder_found n post Hd)].
  destruct (match_at_placeholder n _ _ _ Hm) as (gt & rest & -> & Hs & Hl).
  injection Hs as Hs. apply append_inv_head in Hs.
  cbn [length] in Hl. subst len.
  cbn [replace]. rewrite expand_plain by exact Hv.
  change (submatch [Some (take (S (length (Fmt.Sprint_d (Z.of_nat n) ++ gt)))
                            (String "$" (Fmt.Sprint_d (Z.of_nat n) ++ post)));
                    Some gt] 1) with gt.
  subst post.
  replace (Fmt.Sprint_d (Z.of_nat n) ++ gt ++ rest)
    with ((Fmt.Sprint_d (Z.of_nat n) ++ gt) ++ rest) by apply append_assoc.
  rewrite scan_skip, replace_plain.
  - now rewrite append_assoc.
  - rewrite count_append in Hpost. lia.
Qed.

(** X12: a [$n] that is followed by one more digit is not the
    placeholder [n]: with [n] values the template comes back as it is. *)
Theorem createSQL_numeric_longer_number (pre post value : string) (d : ascii)
    (before : list string) :
  count is_dollar pre = 0 ->
  count is_dollar post = 0 ->
  is_digit d = true ->
  createSQL
    (pre ++ String "$"
              (Fmt.Sprint_d (Z.of_nat (S (List.length before))) ++ String d post))
    (before ++ [value])
  = pre ++ String "$"
             (Fmt.Sprint_d (Z.of_nat (S (List.length before))) ++ String d post).
Proof.
  intros Hpre Hpost Hd.
  set (n := S (List.length before)).
  rewrite createSQL_numeric_replace by apply placeholder_in_template.
  fold n. rewrite replace_lits by exact Hpre. f_equal.
  cbn [scan]. rewrite match_at_placeholder_digit by exact Hd.
  cbn [replace]. f_equal. apply replace_plain.
  rewrite count_append, (digits_no_dollar _ (Sprint_d_digits n)).
  cbn [count]. now rewrite (is_digit_not_dollar d Hd), Hpost.
Qed.

End Replacing.

Section NumericLog.
Context {tables : UnicodeTables} {fmt : Formatter}.

(** X9: a template with a numeric placeholder and no values is
    reconstructed as the empty string, so the line of such an event is
    the bare prefix. *)
Theorem createLog_numeric_no_values (v1 v2 : value) (sql : string)
    (rest : list value) :
  has_numeric_placeholder sql ->
  createSQL sql [] = ""
  /\ createLog (Str "sql" :: v1 :: v2 :: Str sql :: Slice [] :: rest)
     = Ok "[gorm] : ".
Proof.
  intros H. apply MatchString_numeric in H.
  assert (Hc : createSQL sql [] = "") by (unfold createSQL; now rewrite H).
  split; [exact Hc|].
  rewrite (createLog_shape v1 v2 sql [] rest [] (Forall2_nil _)).
  now rewrite Hc.
Qed.

End NumericLog.
Section Builder.

(** X13: [newEncoder] returns no error exactly for the encodings
    [console] and [json], each with its own encoder over the given
    encoder configuration; it returns a nil encoder exactly when it
    returns an error. *)
Theorem newEncoder_error_iff (cfg : ZapConfig) :
  (snd (newEncoder cfg) = None
   <-> Encoding cfg = "console" \/ Encoding cfg = "json")
  /\ (fst (newEncoder cfg) = None <-> snd (newEncoder cfg) <> None)
  /\ (Encoding cfg = "console" ->
      fst (newEncoder cfg) = Some (ConsoleEncoder (EncoderConfig_ cfg)))
  /\ (Encoding cfg = "json" ->
      fst (newEncoder cfg) = Some (JSONEncoder (EncoderConfig_ cfg))).
Proof.
  unfold newEncoder.
  destruct (String.eqb_spec (Encoding cfg) "console") as [Hc|Hc];
    [|destruct (String.eqb_spec (Encoding cfg) "json") as [Hj|Hj]];
    cbn [fst snd].
  - repeat split; auto; try discriminate; try congruence.
  - repeat split; auto; try discriminate; try congruence.
  - repeat split; try discriminate; try congruence;
      try (intros [H|H]; congruence).
Qed.

(** X14: [stdout] and [stderr] name the standard streams; any other
    path gives a rotating file whose name and limits are those of the
    rotation configuration: the path itself is not used. *)
Theorem newWriter_path (path : string) (rotateCfg : Rotate) :
  (path = "stdout" -> newWriter path rotateCfg = Stdout)
  /\ (path = "stderr" -> newWriter path rotateCfg = Stderr)
  /\ (path <> "stdout" -> path <> "stderr" ->
      newWriter path rotateCfg = RotatingFile rotateCfg).
Proof.
  unfold newWriter. split; [|split].
  - intros ->. reflexivity.
  - intros ->. reflexivity.
  - intros H1 H2.
    destruct (String.eqb_spec path "stdout"); [contradiction|].
    destruct (String.eqb_spec path "stderr"); [contradiction|].
    now destruct rotateCfg.
Qed.

Lemma open_fold (paths : list string) (rotateCfg : Rotate) (acc : list WriteSyncer) :
  fold_left (fun writers path => (writers ++ [newWriter path rotateCfg])%list)
            paths acc
  = (acc ++ map (fun path => newWriter path rotateCfg) paths)%list.
Proof.
  revert acc. induction paths as [|p paths IH]; intros acc; cbn [fold_left map].
  - now rewrite app_nil_r.
  - rewrite IH, <- app_assoc. reflexivity.
Qed.

(** X15: [open] combines one writer per path, in the order of the
    paths, each the writer [newWriter] gives for its path. *)
Theorem open_writers (paths : list string) (rotateCfg : Rotate) :
  exists writers,
    open paths rotateCfg = Combined writers
    /\ List.length writers = List.length paths
    /\ (forall i, nth_error writers i
                  = option_map (fun path => newWriter path rotateCfg)
                               (nth_error paths i)).
Proof.
  unfold open. rewrite open_fold. cbn [app].
  eexists. split; [reflexivity|]. split; [apply length_map|].
  intros i. apply nth_error_map.
Qed.

(** X16: the options begin with the error output, which is the only
    one; the development option is there exactly in development mode, the
    caller option exactly when the caller is not disabled, and the
    stack-trace option exactly when stack traces are not disabled, at
    warning level in development mode and at error level otherwise. *)
Theorem buildOptions_flags (cfg : ZapConfig) (errWriter : WriteSyncer) :
  hd_error (buildOptions cfg errWriter) = Some (ErrorOutput errWriter)
  /\ (forall w, In (ErrorOutput w) (buildOptions cfg errWriter) -> w = errWriter)
  /\ (In DevelopmentOption (buildOptions cfg errWriter) <-> Development cfg = true)
  /\ (In AddCaller (buildOptions cfg errWriter) <-> DisableCaller cfg = false)
  /\ (forall lvl,
        In (AddStacktrace lvl) (buildOptions cfg errWriter)
        <-> DisableStacktrace cfg = false
            /\ lvl = if Development cfg then WarnLevel else ErrorLevel).
Proof.
  unfold buildOptions.
  destruct (Development cfg), (DisableCaller cfg), (DisableStacktrace cfg);
    cbn [negb app hd_error In];
    (split; [reflexivity|]);
    (split; [intros w H; intuition congruence|]);
    (split; [intuition (discriminate || congruence)|]);
    (split; [intuition (discriminate || congruence)|]);
    intros lvl; intuition (discriminate || congruence).
Qed.

(** X17: the logger [build] returns writes to one writer per output
    path, reports its own errors to one writer per error output path,
    has the level of the configuration and the encoder of [newEncoder],
    and comes with no error. *)
Theorem build_wiring (cfg : Config) :
  core_out (fst (build cfg))
  = Combined (map (fun path => newWriter path (LogRotate cfg))
                  (OutputPaths (ZapConfig_ cfg)))
  /\ In (ErrorOutput
          (Combined (map (fun path => newWriter path (LogRotate cfg))
                         (ErrorOutputPaths (ZapConfig_ cfg)))))
        (options (fst (build cfg)))
  /\ core_level (fst (build cfg)) = Level (ZapConfig_ cfg)
  /\ core_enc (fst (build cfg)) = fst (newEncoder (ZapConfig_ cfg))
  /\ snd (build cfg) = None.
Proof.
  unfold build, openWriters, open. rewrite !open_fold. cbn [app].
  destruct (newEncoder (ZapConfig_ cfg)) as [enc err]. cbn [fst snd core_out core_level core_enc options].
  repeat split.
  unfold buildOptions.
  destruct (Development (ZapConfig_ cfg)), (DisableCaller (ZapConfig_ cfg)),
    (DisableStacktrace (ZapConfig_ cfg)); cbn; auto.
Qed.

End Builder.
End CoverFacts.

(** ** The statements above at concrete inputs *)

Module CoverExamples.
Import Bytes Dyn Regexp SQL Spec Logger Pipeline Sample Cover.
Import RegexpFacts CoverFacts.

#[local] Existing Instance ascii_tables.
#[local] Existing Instance plain_formatter.

Lemma Println_untagged_witness :
  ~ tagged [Str "sql"]
  /\ (createLog [Str "sql"] = Ok "" /\ Println fresh_logger [Str "sql"] = Ok fresh_logger).
Proof.
  assert (H : ~ tagged [Str "sql"]) by (intros [H _]; cbn in H; lia).
  split; [exact H|].
  exact (Println_untagged fresh_logger [Str "sql"] H).
Defined.

Lemma Println_appends_witness :
  Println fresh_logger select_event
  = Ok {| zap := [(DebugLevel,
                   "[gorm] : SELECT * FROM category_master WHERE (id = 1)")] |}
  /\ exists added,
       zap {| zap := [(DebugLevel,
                       "[gorm] : SELECT * FROM category_master WHERE (id = 1)")] |}
       = (zap fresh_logger ++ added)%list
       /\ List.length added <= 1
       /\ (added <> [] <-> tagged select_event)
       /\ (forall lvl msg, In (lvl, msg) added ->
           lvl = DebugLevel /\ exists statement, msg = "[gorm] : " ++ statement).
Proof.
  assert (H : Println fresh_logger select_event
              = Ok {| zap := [(DebugLevel,
                    "[gorm] : SELECT * FROM category_master WHERE (id = 1)")] |})
    by (vm_compute; reflexivity).
  split; [exact H|].
  exact (Println_appends fresh_logger _ select_event H).
Defined.

Lemma getFormattedValues_order_witness :
  nth_error select_event 4 = Some (Slice [Int 1])
  /\ (getFormattedValues select_event = Ok ["1"]
      <-> Forall2 (fun v text => format v = Ok text) [Int 1] ["1"])
  /\ (getFormattedValues select_event = Ok ["1"] ->
      forall i v, nth_error [Int 1] i = Some v ->
      exists text, nth_error ["1"] i = Some text /\ format v = Ok text).
Proof.
  assert (H : nth_error select_event 4 = Some (Slice [Int 1])) by reflexivity.
  split; [exact H|].
  exact (getFormattedValues_order select_event [Int 1] ["1"] H).
Defined.

Lemma isPrintable_ascii_witness :
  all is_ascii (String "a" (String (ascii_of_nat 10) "b")) = true
  /\ (isPrintable (String "a" (String (ascii_of_nat 10) "b"))
      = all printable_ascii (String "a" (String (ascii_of_nat 10) "b"))
      /\ format (ByteSlice (String "a" (String (ascii_of_nat 10) "b")))
         = Ok (if all printable_ascii (String "a" (String (ascii_of_nat 10) "b"))
               then "'" ++ String "a" (String (ascii_of_nat 10) "b") ++ "'"
               else "'<binary>'")).
Proof.
  assert (H : all is_ascii (String "a" (String (ascii_of_nat 10) "b")) = true)
    by reflexivity.
  split; [exact H|].
  exact (isPrintable_ascii (String "a" (String (ascii_of_nat 10) "b")) H).
Defined.

Lemma createSQL_surplus_values_witness :
  Forall no_qmark (map fst [("SELECT ", "1")])
  /\ no_qmark " FROM t"
  /\ MatchString numericPlaceHolderRegexp (holes [("SELECT ", "1")] ++ " FROM t")
     = false
  /\ createSQL (holes [("SELECT ", "1")] ++ " FROM t")
               (map snd [("SELECT ", "1")] ++ "2" :: ["3"])
     = filled [("SELECT ", "1")] ++ " FROM t" ++ "2".
Proof.
  assert (H1 : Forall no_qmark (map fst [("SELECT ", "1")])) by (repeat constructor).
  assert (H2 : no_qmark " FROM t") by reflexivity.
  assert (H3 : MatchString numericPlaceHolderRegexp
                 (holes [("SELECT ", "1")] ++ " FROM t") = false) by reflexivity.
  split; [exact H1|]. split; [exact H2|]. split; [exact H3|].
  exact (createSQL_surplus_values [("SELECT ", "1")] " FROM t" "2" ["3"] H1 H2 H3).
Defined.

Lemma createSQL_positional_no_template_qmark_witness :
  MatchString numericPlaceHolderRegexp "a = ? AND b = ?" = false
  /\ count is_qmark (createSQL "a = ? AND b = ?" ["1"])
     = count is_qmark
         (concat (firstn (S (count is_qmark "a = ? AND b = ?")) ["1"])).
Proof.
  assert (H : MatchString numericPlaceHolderRegexp "a = ? AND b = ?" = false)
    by reflexivity.
  split; [exact H|].
  exact (createSQL_positional_no_template_qmark "a = ? AND b = ?" ["1"] H).
Defined.

Lemma createSQL_positional_dialect_witness :
  ~ has_numeric_placeholder "a = ? AND b = ?"
  /\ createSQL "a = ? AND b = ?" ["1"; "2"]
     = interleave (fst (split_qmark "a = ? AND b = ?")
                   :: snd (split_qmark "a = ? AND b = ?")) ["1"; "2"].
Proof.
  assert (H : ~ has_numeric_placeholder "a = ? AND b = ?").
  { intros H. apply MatchString_numeric in H. discriminate H. }
  split; [exact H|].
  exact (createSQL_positional_dialect "a = ? AND b = ?" ["1"; "2"] H).
Defined.

Lemma createSQL_numeric_last_value_witness :
  has_numeric_placeholder "a = $1 AND b = $2"
  /\ List.length ["1"] = List.length ["9"]
  /\ createSQL "a = $1 AND b = $2" (["1"] ++ ["'x'"])
     = createSQL "a = $1 AND b = $2" (["9"] ++ ["'x'"]).
Proof.
  assert (H : has_numeric_placeholder "a = $1 AND b = $2").
  { exists "a = ", "1"%char, " AND b = $2". split; reflexivity. }
  assert (Hl : List.length ["1"] = List.length ["9"]) by reflexivity.
  split; [exact H|]. split; [exact Hl|].
  exact (createSQL_numeric_last_value "a = $1 AND b = $2" ["1"] ["9"] "'x'" H Hl).
Defined.

Lemma createSQL_numeric_placeholder_witness :
  count is_dollar "a = " = 0
  /\ count is_dollar " LIMIT 1" = 0
  /\ count is_dollar "'x'" = 0
  /\ starts_with_digit " LIMIT 1" = false
  /\ createSQL
       ("a = " ++ String "$" (Fmt.Sprint_d (Z.of_nat (S (List.length ["1"])))
                              ++ " LIMIT 1"))
       (["1"] ++ ["'x'"])
     = "a = " ++ "'x'" ++ " LIMIT 1".
Proof.
  assert (H1 : count is_dollar "a = " = 0) by reflexivity.
  assert (H2 : count is_dollar " LIMIT 1" = 0) by reflexivity.
  assert (H3 : count is_dollar "'x'" = 0) by reflexivity.
  assert (H4 : starts_with_digit " LIMIT 1" = false) by reflexivity.
  split; [exact H1|]. split; [exact H2|]. split; [exact H3|]. split; [exact H4|].
  exact (createSQL_numeric_placeholder "a = " " LIMIT 1" "'x'" ["1"] H1 H2 H3 H4).
Defined.

Lemma createSQL_numeric_longer_number_witness :
  count is_dollar "a = " = 0
  /\ count is_dollar " LIMIT 1" = 0
  /\ is_digit "0" = true
  /\ createSQL
       ("a = " ++ String "$" (Fmt.Sprint_d (Z.of_nat (S (List.length (@nil string))))
                              ++ String "0" " LIMIT 1"))
       ([] ++ ["'x'"])
     = "a = " ++ String "$" (Fmt.Sprint_d (Z.of_nat (S (List.length (@nil string))))
                             ++ String "0" " LIMIT 1").
Proof.
  assert (H1 : count is_dollar "a = " = 0) by reflexivity.
  assert (H2 : count is_dollar " LIMIT 1" = 0) by reflexivity.
  assert (H3 : is_digit "0" = true) by reflexivity.
  split; [exact H1|]. split; [exact H2|]. split; [exact H3|].
  exact (createSQL_numeric_longer_number "a = " " LIMIT 1" "'x'" "0" [] H1 H2 H3).
Defined.

Lemma createLog_numeric_no_values_witness :
  has_numeric_placeholder "SELECT * FROM t WHERE a = $1"
  /\ (createSQL "SELECT * FROM t WHERE a = $1" [] = ""
      /\ createLog (Str "sql" :: Str "category.go:28" :: Other 0
                    :: Str "SELECT * FROM t WHERE a = $1" :: Slice [] :: [Int 0])
         = Ok "[gorm] : ").
Proof.
  assert (H : has_numeric_placeholder "SELECT * FROM t WHERE a = $1").
  { exists "SELECT * FROM t WHERE a = ", "1"%char, "". split; reflexivity. }
  split; [exact H|].
  exact (createLog_numeric_no_values (Str "category.go:28") (Other 0)
           "SELECT * FROM t WHERE a = $1" [Int 0] H).
Defined.

End CoverExamples.
